(** * Sitemap_collector.py: the bounded sitemap traversal

  A shallow embedding of [SiteMapCollector] (Project 2, src/my package/
  Sitemap_collector.py) and the properties of its traversal:
  the shared visit counter, the order in which entries are recorded,
  the treatment of failed fetches and of the robots.txt lines.

  Python values are modelled as follows.
  - [str] is [string]; a character is a code point below 256.
  - [int] is [Z].
  - [dict] is an association list in insertion order ([PyDict]).
  - The libraries [requests] and [bs4] are interfaces ([Class]es): the
    traversal is verified for every implementation of them. *)

From Stdlib Require Import ZArith List String Ascii Bool Lia Permutation.
Import ListNotations.

Local Open Scope string_scope.

(* ================================================================= *)
(** ** Python [str] methods used by the collector *)

Module PyStr.

(** [str.startswith(prefix)] *)
Definition startswith (s pre : string) : bool := String.prefix pre s.

(** [str.endswith(suffix)]: some tail of [s] is [suffix]. *)
Fixpoint endswith (s suffix : string) : bool :=
  String.eqb s suffix
  || match s with
     | EmptyString => false
     | String _ s' => endswith s' suffix
     end.

(** [s.split(sep)] for a non-empty [sep]: occurrences of [sep] are found
    from left to right and do not overlap.  [skip] counts the characters
    of a separator just found that are still to be passed over; [cur] is
    the piece being read. *)
Fixpoint split_go (sep : string) (skip : nat) (cur s : string) : list string :=
  match s with
  | EmptyString => [cur]
  | String c s' =>
      match skip with
      | S k => split_go sep k cur s'
      | O =>
          if String.prefix sep s
          then cur :: split_go sep (String.length sep - 1) "" s'
          else split_go sep O (cur ++ String c "") s'
      end
  end.

Definition split (s sep : string) : list string := split_go sep 0 "" s.

(** Code points below 256 for which [str.isspace()] holds:
    TAB LF VT FF CR, FS GS RS US, SPACE, NEL and NBSP. *)
Definition isspace (c : ascii) : bool :=
  let n := nat_of_ascii c in
  ((9 <=? n) && (n <=? 13) || (28 <=? n) && (n <=? 32)
   || (n =? 133) || (n =? 160))%nat.

Fixpoint lstrip (s : string) : string :=
  match s with
  | EmptyString => ""
  | String c s' => if isspace c then lstrip s' else s
  end.

Fixpoint rstrip (s : string) : string :=
  match s with
  | EmptyString => ""
  | String c s' =>
      let r := rstrip s' in
      if isspace c && String.eqb r "" then "" else String c r
  end.

(** [str.strip()] *)
Definition strip (s : string) : string := rstrip (lstrip s).

(** Line boundaries of [str.splitlines()] below 256:
    LF VT FF CR, FS GS RS and NEL; CR LF counts as one boundary. *)
Definition islinebreak (c : ascii) : bool :=
  let n := nat_of_ascii c in
  ((10 <=? n) && (n <=? 13) || (28 <=? n) && (n <=? 30) || (n =? 133))%nat.

Definition CR : ascii := "013"%char.
Definition LF : ascii := "010"%char.

Fixpoint splitlines_go (cur s : string) : list string :=
  match s with
  | EmptyString => if String.eqb cur "" then [] else [cur]
  | String c s' =>
      if islinebreak c then
        match s' with
        | String c' s'' =>
            if Ascii.eqb c CR && Ascii.eqb c' LF
            then cur :: splitlines_go "" s''
            else cur :: splitlines_go "" s'
        | EmptyString => cur :: splitlines_go "" s'
        end
      else splitlines_go (cur ++ String c "") s'
  end.

(** [str.splitlines()] *)
Definition splitlines (s : string) : list string := splitlines_go "" s.

(** [s.replace(old, new)] for a non-empty [old]: the occurrences of [old]
    are found from left to right and do not overlap. *)
Fixpoint replace_go (old new : string) (skip : nat) (s : string) : string :=
  match s with
  | EmptyString => ""
  | String c s' =>
      match skip with
      | S k => replace_go old new k s'
      | O =>
          if String.prefix old s
          then new ++ replace_go old new (String.length old - 1) s'
          else String c (replace_go old new O s')
      end
  end.

Definition replace (s old new : string) : string := replace_go old new 0 s.

(** [sub in s] *)
Definition occurs (sub s : string) : Prop := exists p q, s = p ++ sub ++ q.

End PyStr.

(** [re.search(r"\.xml$", link)]: without [re.MULTILINE], [$] matches at the
  end of the string and also just before a newline that ends the
  string. *)
Module re.
Definition search_xml_end (link : string) : bool :=
  PyStr.endswith link ".xml"
  || PyStr.endswith link (".xml" ++ String PyStr.LF "").
End re.

(* ================================================================= *)
(** ** Python [dict]: insertion-ordered, assignment to a key that is present
     keeps its position *)

Module PyDict.
Section Dict.
Context {V : Type}.

Definition t := list (string * V).

Fixpoint get (k : string) (d : t) : option V :=
  match d with
  | [] => None
  | (k', v) :: d' => if String.eqb k k' then Some v else get k d'
  end.

(** [d[k] = v] *)
Fixpoint set (k : string) (v : V) (d : t) : t :=
  match d with
  | [] => [(k, v)]
  | (k', v') :: d' =>
      if String.eqb k k' then (k', v) :: d' else (k', v') :: set k v d'
  end.

Definition keys (d : t) : list string := map fst d.
End Dict.
Arguments t : clear implicits.
End PyDict.

(* ================================================================= *)
(** ** The two libraries the collector calls *)

Module requests.
(** What [_request_content] uses of a response. *)
Record Response := {
  raise_for_status : bool;   (* [true]: raises HTTPError *)
  text : string
}.

Inductive get_result :=
| Returns (response : Response)
| RequestException.          (* connection error, timeout, invalid URL *)

(** [get n url]: the outcome of the HTTP GET of [url] when [n] requests
    were made before it.  The same address may answer differently each
    time. *)
Class Net := { get : nat -> string -> get_result }.
End requests.

Module bs4.
Class Parser := {
  Soup : Type;
  Tag : Type;
  BeautifulSoup : string -> string -> Soup;
  (** all the tags of that name, in document order *)
  find_all : Soup -> string -> list Tag;
  text : Tag -> string
}.
End bs4.

(* ================================================================= *)
(** ** The collector *)

(** What the traversal does, in the order it does it.  Each event is kept
    with the value of [sitemap_count] at that moment. *)
Inductive event :=
| Enter (sitemap_url : string)   (* [_parse_sitemap] is called *)
| Get (url : string)             (* [requests.get] is called *)
| Store (sitemap_url : string).  (* [collected_data[sitemap_url]] is assigned *)

Record SiteMapCollector := {
  base_site : string;
  collected_data : PyDict.t (list string);  (* one column, "URLs" *)
  sitemap_count : Z;
  max_sitemaps : Z;
  agents : list string;
  trace : list (event * Z)
}.

Inductive exn := IndexError.

Inductive outcome :=
| Normal (self : SiteMapCollector)
| Raised (e : exn) (self : SiteMapCollector).

Definition state_of (o : outcome) : SiteMapCollector :=
  match o with Normal self | Raised _ self => self end.

Definition emit (e : event) (self : SiteMapCollector) : SiteMapCollector :=
  {| base_site := base_site self;
     collected_data := collected_data self;
     sitemap_count := sitemap_count self;
     max_sitemaps := max_sitemaps self;
     agents := agents self;
     trace := trace self ++ [(e, sitemap_count self)] |}.

(** [self.sitemap_count += 1] *)
Definition incr_count (self : SiteMapCollector) : SiteMapCollector :=
  {| base_site := base_site self;
     collected_data := collected_data self;
     sitemap_count := sitemap_count self + 1;
     max_sitemaps := max_sitemaps self;
     agents := agents self;
     trace := trace self |}.

(** [self.collected_data[sitemap_url] = pd.DataFrame(found_urls, columns=["URLs"])] *)
Definition store (sitemap_url : string) (found_urls : list string)
    (self : SiteMapCollector) : SiteMapCollector :=
  let self' := emit (Store sitemap_url) self in
  {| base_site := base_site self';
     collected_data := PyDict.set sitemap_url found_urls (collected_data self');
     sitemap_count := sitemap_count self';
     max_sitemaps := max_sitemaps self';
     agents := agents self';
     trace := trace self' |}.

(** The addresses requested, in order. *)
Fixpoint gets (tr : list (event * Z)) : list string :=
  match tr with
  | [] => []
  | (Get url, _) :: tr' => url :: gets tr'
  | _ :: tr' => gets tr'
  end.

(** The addresses [_parse_sitemap] was called with, in order. *)
Fixpoint enters (tr : list (event * Z)) : list string :=
  match tr with
  | [] => []
  | (Enter url, _) :: tr' => url :: enters tr'
  | _ :: tr' => enters tr'
  end.

(** Number of requests made, and of calls of [_parse_sitemap]. *)
Definition n_gets (self : SiteMapCollector) : Z :=
  Z.of_nat (List.length (gets (trace self))).

Definition n_enters (self : SiteMapCollector) : Z :=
  Z.of_nat (List.length (enters (trace self))).

(** A call of [_parse_sitemap] fetches when it finds the counter below the
    maximum. *)
Definition room (self : SiteMapCollector) : Z :=
  if (sitemap_count self <? max_sitemaps self)%Z then 1%Z else 0%Z.

(** The counter values up to the present one at which a call fetches. *)
Definition credit (self : SiteMapCollector) : Z :=
  Z.min (sitemap_count self) (max_sitemaps self - 1).

(** [advances e g a b]: what every piece of the traversal guarantees when it
    takes the collector from [a] to [b].  [e] and [g] are the calls and the
    requests the piece makes beyond those paid for by the counter. *)
Record advances (e g : Z) (a b : SiteMapCollector) : Prop := {
  adv_base : base_site b = base_site a;
  adv_max : max_sitemaps b = max_sitemaps a;
  adv_agents : agents b = agents a;
  adv_mono : (sitemap_count a <= sitemap_count b)%Z;
  adv_cap : (sitemap_count b <= Z.max (sitemap_count a) (max_sitemaps a))%Z;
  adv_enters :
    (n_enters b = n_enters a + e + (sitemap_count b - sitemap_count a))%Z;
  adv_gets : (n_gets b <= n_gets a + g + (credit b - credit a))%Z;
  adv_trace :
    exists tr, trace b = (trace a ++ tr)%list
      /\ Forall (fun ev => (snd ev <= Z.max (sitemap_count a) (max_sitemaps a))%Z) tr;
  adv_keys :
    exists ks, PyDict.keys (collected_data b)
               = (PyDict.keys (collected_data a) ++ ks)%list
}.

Section Collector.
Context {net : requests.Net} {parser : bs4.Parser}.

Local Open Scope Z_scope.

(** [_request_content]: the body of the response, or the empty string when
    [requests.get] or [raise_for_status] raises a [RequestException].  The
    User-Agent header drawn from [agents] is part of the request; [get]
    answers for every request, whatever its header. *)
Definition _request_content (url : string) (self : SiteMapCollector)
  : string * SiteMapCollector :=
  let self' := emit (Get url) self in
  match requests.get (List.length (gets (trace self))) url with
  | requests.Returns response =>
      if requests.raise_for_status response then ("", self')
      else (requests.text response, self')
  | requests.RequestException => ("", self')
  end.

(** The request of [url], made after [n] others, raises a
    [RequestException]. *)
Definition fetch_fails (n : nat) (url : string) : Prop :=
  match requests.get n url with
  | requests.Returns response => requests.raise_for_status response = true
  | requests.RequestException => True
  end.

(** [_extract_links] *)
Definition _extract_links (xml_content : string) : list string :=
  let soup := bs4.BeautifulSoup xml_content "xml" in
  map bs4.text (bs4.find_all soup "loc").

(** The [for link in found_urls] loop of [_parse_sitemap]; [visit] is the
    recursive call. *)
Fixpoint for_links (visit : string -> SiteMapCollector -> option SiteMapCollector)
    (found_urls : list string) (self : SiteMapCollector)
  : option SiteMapCollector :=
  match found_urls with
  | [] => Some self
  | link :: rest =>
      if re.search_xml_end link && (sitemap_count self <? max_sitemaps self)
      then
        match visit link (incr_count self) with
        | Some self' => for_links visit rest self'
        | None => None
        end
      else for_links visit rest self
  end.

(** [_parse_sitemap] with a bound on the depth of the recursion: [None]
    when the bound is reached. *)
Fixpoint parse (fuel : nat) (sitemap_url : string) (self : SiteMapCollector)
  : option SiteMapCollector :=
  let self := emit (Enter sitemap_url) self in
  if sitemap_count self >=? max_sitemaps self then Some self
  else
    match fuel with
    | O => None
    | S fuel' =>
        let (xml_content, self) := _request_content sitemap_url self in
        let found_urls := _extract_links xml_content in
        match for_links (parse fuel') found_urls self with
        | Some self => Some (store sitemap_url found_urls self)
        | None => None
        end
    end.

(** Each recursive call follows an increment of the counter, so
    [max_sitemaps - sitemap_count] bounds the depth. *)
Definition _parse_sitemap (sitemap_url : string) (self : SiteMapCollector)
  : option SiteMapCollector :=
  parse (Z.to_nat (max_sitemaps self - sitemap_count self)) sitemap_url self.

(** The [for line in robots_content.splitlines()] loop. *)
Fixpoint for_lines (lines : list string) (self : SiteMapCollector)
  : option outcome :=
  match lines with
  | [] => Some (Normal self)
  | line :: rest =>
      if PyStr.startswith line "Sitemap:" then
        match nth_error (PyStr.split line ": ") 1 with
        | None => Some (Raised IndexError self)
        | Some field =>
            let sitemap_link := PyStr.strip field in
            if sitemap_count self <? max_sitemaps self then
              match _parse_sitemap sitemap_link (incr_count self) with
              | Some self' => for_lines rest self'
              | None => None
              end
            else for_lines rest self
        end
      else for_lines rest self
  end.

Definition _search_sitemaps (self : SiteMapCollector) : option outcome :=
  let (robots_content, self) :=
    _request_content (base_site self ++ "/robots.txt") self in
  for_lines (PyStr.splitlines robots_content) self.

Definition default_agents : list string :=
  ["Mozilla/5.0 (Windows NT 10.0; Win64; x64)";
   "Mozilla/5.0 (Macintosh; Intel Mac OS X 10_15_7)"].

(** [SiteMapCollector(base_site, max_sitemaps, agents)] *)
Definition __init__ (base : string) (max : Z) (user_agents : option (list string))
  : option outcome :=
  _search_sitemaps
    {| base_site := base;
       collected_data := [];
       sitemap_count := 0;
       max_sitemaps := max;
       agents := match user_agents with
                 | None | Some [] => default_agents   (* [agents or [...]] *)
                 | Some l => l
                 end;
       trace := [] |}.

End Collector.

(* ================================================================= *)
(** ** A small site, for the examples *)

Module Site.

(** Documents are served from a table; an address outside the table cannot
    be reached. *)
Definition serve (pages : list (string * string)) : requests.Net :=
  {| requests.get := fun _ url =>
       match PyDict.get url pages with
       | Some body =>
           requests.Returns
             {| requests.raise_for_status := false; requests.text := body |}
       | None => requests.RequestException
       end |}.

(** The text between [<name>] and [</name>], for documents without
    attributes or nesting of that tag. *)
Definition between_tags (doc name : string) : list string :=
  map (fun piece => hd "" (PyStr.split piece ("</" ++ name ++ ">")))
      (tl (PyStr.split doc ("<" ++ name ++ ">"))).

Definition flat_xml : bs4.Parser :=
  {| bs4.Soup := string;
     bs4.Tag := string;
     bs4.BeautifulSoup := fun markup _ => markup;
     bs4.find_all := between_tags;
     bs4.text := fun t => t |}.

Definition robots_a : string := "User-agent: *
Sitemap: http://x/a.xml".

Definition a_xml : string :=
  "<sitemapindex><loc>http://x/b.xml</loc><loc>http://x/p1</loc></sitemapindex>".

Definition b_xml : string :=
  "<urlset><loc>http://x/p2</loc></urlset>".

(** robots.txt declares a.xml; a.xml declares b.xml and a page. *)
Definition nested : list (string * string) :=
  [("http://x/robots.txt", robots_a);
   ("http://x/a.xml", a_xml);
   ("http://x/b.xml", b_xml)].

(** The same site when b.xml cannot be reached. *)
Definition dead_child : list (string * string) :=
  [("http://x/robots.txt", robots_a);
   ("http://x/a.xml", a_xml)].

(** A robots.txt whose Sitemap line has no space after the colon. *)
Definition no_space : list (string * string) :=
  [("http://x/robots.txt", "Sitemap:http://x/a.xml");
   ("http://x/a.xml", a_xml);
   ("http://x/b.xml", b_xml)].

(** a.xml declares b.xml with a line break before the closing tag. *)
Definition b_newline : string := "http://x/b.xml" ++ String PyStr.LF "".

Definition newline_link : list (string * string) :=
  [("http://x/robots.txt", robots_a);
   ("http://x/a.xml",
    "<sitemapindex><loc>" ++ b_newline ++ "</loc></sitemapindex>")].

(** a.xml declares itself. *)
Definition cyclic : list (string * string) :=
  [("http://x/robots.txt", robots_a);
   ("http://x/a.xml",
    "<sitemapindex><loc>http://x/a.xml</loc></sitemapindex>")].

(** A document that declares one page twice. *)
Definition pages_xml : string :=
  "<urlset><loc>http://x/p1</loc><loc>http://x/p1</loc><loc>http://x/p2</loc></urlset>".

Definition repeated : list (string * string) :=
  [("http://x/robots.txt", "Sitemap: http://x/pages.xml");
   ("http://x/pages.xml", pages_xml)].

(** robots.txt declares the same sitemap of pages on two lines. *)
Definition twice : list (string * string) :=
  [("http://x/robots.txt",
    "Sitemap: http://x/pages.xml" ++ String PyStr.LF ""
    ++ "Sitemap: http://x/pages.xml");
   ("http://x/pages.xml", pages_xml)].

(** [SiteMapCollector("http://x", max_sitemaps=B)] on the site [pages]. *)
Definition crawl (pages : list (string * string)) (B : Z) : option outcome :=
  @__init__ (serve pages) flat_xml "http://x" B None.

(** The collector on entry to a first visit: robots.txt was read and the
    counter incremented. *)
Definition first_visit (B : Z) : SiteMapCollector :=
  {| base_site := "http://x";
     collected_data := [];
     sitemap_count := 1;
     max_sitemaps := B;
     agents := default_agents;
     trace := [(Get "http://x/robots.txt", 0%Z)] |}.

End Site.

(* ================================================================= *)
(** ** The rest of the class: [filter_urls] and [save_csv] *)

(** The addresses whose entry was assigned, in order. *)
Fixpoint stores (tr : list (event * Z)) : list string :=
  match tr with
  | [] => []
  | (Store url, _) :: tr' => url :: stores tr'
  | _ :: tr' => stores tr'
  end.

(** The value of [line.split(": ")[1].strip()] for the lines of robots.txt
    that start with "Sitemap:", in file order (a line on which the
    expression raises contributes nothing). *)
Definition entry_points (lines : list string) : list string :=
  flat_map
    (fun line =>
       if PyStr.startswith line "Sitemap:" then
         match nth_error (PyStr.split line ": ") 1 with
         | Some field => [PyStr.strip field]
         | None => []
         end
       else [])
    lines.

(** [x.replace(f"{self.base_site}/", "").split("/")], the lambda of
    [filter_urls]. *)
Definition subdirectories (base x : string) : list string :=
  PyStr.split (PyStr.replace x (base ++ "/") "") "/".

(** [filter_urls]: every frame gets the column "Subdirectories".  A frame
    is given by its rows, each a pair of the "URLs" value and the
    "Subdirectories" value. *)
Definition filter_urls (self : SiteMapCollector)
  : PyDict.t (list (string * list string)) :=
  map (fun entry =>
         (fst entry,
          map (fun x => (x, subdirectories (base_site self) x)) (snd entry)))
      (collected_data self).

(** What [save_csv] asks of the operating system. *)
Inductive os_call (F : Type) :=
| Makedirs (folder : string)
| ToCsv (file_name : string) (df : F).
Arguments Makedirs {F} folder.
Arguments ToCsv {F} file_name df.

(** [f"{folder}/{key.split('/')[-1]}.csv"] *)
Definition csv_name (folder key : string) : string :=
  folder ++ "/" ++ last (PyStr.split key "/") "" ++ ".csv".

(** [save_csv]: [folder_exists] is the answer of [os.path.exists(folder)];
    [data] is [self.collected_data], with frames of one or of two
    columns. *)
Definition save_csv {F : Type} (folder : string) (folder_exists : bool)
    (data : PyDict.t F) : list (os_call F) :=
  ((if folder_exists then [] else [Makedirs folder])
   ++ map (fun entry => ToCsv (csv_name folder (fst entry)) (snd entry)) data)%list.

Section Observations.
Context {net : requests.Net} {parser : bs4.Parser}.

(** What [_request_content] returns for the request of [url] made after
    [n] others. *)
Definition response_body (n : nat) (url : string) : string :=
  match requests.get n url with
  | requests.Returns response =>
      if requests.raise_for_status response then "" else requests.text response
  | requests.RequestException => ""
  end.

(** [settles a b]: the traversal went from [a] to [b] through complete
    visits.  The requests and the assignments made on the way are the same
    addresses, as often; the keys of [collected_data] are the old ones and
    the addresses requested; no key is repeated; the entry of an address
    that was not requested is as it was. *)
Definition settles (a b : SiteMapCollector) : Prop :=
  exists tr,
    trace b = (trace a ++ tr)%list
    /\ Permutation.Permutation (gets tr) (stores tr)
    /\ (forall k, In k (PyDict.keys (collected_data b))
                  <-> In k (PyDict.keys (collected_data a)) \/ In k (gets tr))
    /\ (NoDup (PyDict.keys (collected_data a)) ->
        NoDup (PyDict.keys (collected_data b)))
    /\ (forall k, ~ In k (gets tr) ->
                  PyDict.get k (collected_data b) = PyDict.get k (collected_data a)).

(** [documented a]: every entry holds the links of a response that was
    obtained for its address, that of the [n]-th request, which was for
    that address. *)
Definition documented (a : SiteMapCollector) : Prop :=
  forall k v,
    PyDict.get k (collected_data a) = Some v ->
    exists n, nth_error (gets (trace a)) n = Some k
              /\ v = _extract_links (response_body n k).

End Observations.

(* ================================================================= *)
(** ** Strings and dictionaries *)

Lemma endswith_spec (s suffix : string) :
  PyStr.endswith s suffix = true <-> exists p, s = p ++ suffix.
Proof.
  split.
  - induction s as [|c s IH]; cbn [PyStr.endswith]; intros H.
    + rewrite orb_false_r in H. apply String.eqb_eq in H. subst.
      now exists "".
    + apply orb_true_iff in H as [H|H].
      * apply String.eqb_eq in H. now exists "".
      * destruct (IH H) as [p ->]. now exists (String c p).
  - intros [p ->]. induction p as [|c p IH].
    + destruct suffix; cbn [PyStr.endswith append];
        now rewrite String.eqb_refl.
    + cbn [PyStr.endswith append]. rewrite IH. apply orb_true_r.
Qed.

(** The links the pattern of [_parse_sitemap] accepts. *)
Lemma search_xml_end_spec (link : string) :
  re.search_xml_end link = true
  <-> exists p, link = p ++ ".xml" \/ link = p ++ ".xml" ++ String PyStr.LF "".
Proof.
  unfold re.search_xml_end. rewrite orb_true_iff, !endswith_spec.
  split.
  - intros [[p H]|[p H]]; exists p; auto.
  - intros [p [H|H]]; [left|right]; now exists p.
Qed.

Lemma dict_get_set_same {V} (k : string) (v : V) (d : PyDict.t V) :
  PyDict.get k (PyDict.set k v d) = Some v.
Proof.
  induction d as [|[k' v'] d IH]; simpl.
  - now rewrite String.eqb_refl.
  - destruct (String.eqb k k') eqn:E; simpl; rewrite E; auto.
Qed.

Lemma dict_get_set_other {V} (k k0 : string) (v : V) (d : PyDict.t V) :
  k0 <> k -> PyDict.get k0 (PyDict.set k v d) = PyDict.get k0 d.
Proof.
  intros Hne. induction d as [|[k' v'] d IH]; simpl.
  - apply String.eqb_neq in Hne. now rewrite Hne.
  - destruct (String.eqb k k') eqn:E; simpl.
    + apply String.eqb_eq in E. subst k'.
      apply String.eqb_neq in Hne. now rewrite Hne.
    + now rewrite IH.
Qed.

Lemma dict_keys_set_old {V} (k : string) (v : V) (d : PyDict.t V) :
  In k (PyDict.keys d) -> PyDict.keys (PyDict.set k v d) = PyDict.keys d.
Proof.
  induction d as [|[k' v'] d IH]; simpl; intros H.
  - contradiction.
  - destruct (String.eqb k k') eqn:E; simpl.
    + reflexivity.
    + f_equal. apply IH. destruct H as [H|H]; auto.
      subst. now rewrite String.eqb_refl in E.
Qed.

Lemma dict_keys_set_new {V} (k : string) (v : V) (d : PyDict.t V) :
  ~ In k (PyDict.keys d) -> PyDict.keys (PyDict.set k v d) = (PyDict.keys d ++ [k])%list.
Proof.
  induction d as [|[k' v'] d IH]; simpl; intros H.
  - reflexivity.
  - destruct (String.eqb k k') eqn:E; simpl.
    + apply String.eqb_eq in E. subst. tauto.
    + f_equal. apply IH. tauto.
Qed.

Lemma dict_keys_set {V} (k : string) (v : V) (d : PyDict.t V) :
  exists ks, PyDict.keys (PyDict.set k v d) = (PyDict.keys d ++ ks)%list.
Proof.
  induction d as [|[k' v'] d [ks IH]]; simpl.
  - now exists [k].
  - destruct (String.eqb k k'); simpl.
    + exists []. now rewrite app_nil_r.
    + exists ks. now rewrite IH.
Qed.

(* ================================================================= *)
(** ** The trace and the counter *)

Lemma gets_app (tr1 tr2 : list (event * Z)) :
  gets (tr1 ++ tr2) = (gets tr1 ++ gets tr2)%list.
Proof.
  induction tr1 as [|[[u|u|u] c] tr1 IH]; simpl; now rewrite ?IH.
Qed.

Lemma enters_app (tr1 tr2 : list (event * Z)) :
  enters (tr1 ++ tr2) = (enters tr1 ++ enters tr2)%list.
Proof.
  induction tr1 as [|[[u|u|u] c] tr1 IH]; simpl; now rewrite ?IH.
Qed.

Local Open Scope Z_scope.

Lemma room_cases (a : SiteMapCollector) :
  (sitemap_count a < max_sitemaps a /\ room a = 1)
  \/ (max_sitemaps a <= sitemap_count a /\ room a = 0).
Proof.
  unfold room. destruct (Z.ltb_spec (sitemap_count a) (max_sitemaps a)); lia.
Qed.

Ltac observe :=
  unfold n_gets, n_enters, credit, store, emit, incr_count in *;
  cbn [trace sitemap_count max_sitemaps base_site agents collected_data] in *;
  rewrite ?gets_app, ?enters_app, ?length_app, ?Nat2Z.inj_add in *;
  cbn [gets enters List.length] in *.

Lemma advances_refl (a : SiteMapCollector) : advances 0 0 a a.
Proof.
  constructor; try reflexivity; try lia.
  - exists []. now rewrite app_nil_r.
  - exists []. now rewrite app_nil_r.
Qed.

Lemma advances_trans (e1 g1 e2 g2 : Z) (a b c : SiteMapCollector) :
  advances e1 g1 a b -> advances e2 g2 b c ->
  advances (e1 + e2) (g1 + g2) a c.
Proof.
  intros [B1 M1 A1 Mo1 C1 E1 G1 [tr1 [T1 F1]] [ks1 K1]]
         [B2 M2 A2 Mo2 C2 E2 G2 [tr2 [T2 F2]] [ks2 K2]].
  constructor; try congruence; try lia.
  - exists (tr1 ++ tr2)%list. split.
    + now rewrite T2, T1, app_assoc.
    + apply Forall_app. split; [assumption|].
      eapply Forall_impl; [|exact F2]. cbv beta. intros ev Hev.
      rewrite M1 in Hev. lia.
  - exists (ks1 ++ ks2)%list. now rewrite K2, K1, app_assoc.
Qed.

Lemma advances_eq (e g e' g' : Z) (a b : SiteMapCollector) :
  e = e' -> g = g' -> advances e g a b -> advances e' g' a b.
Proof. now intros -> ->. Qed.

Lemma advances_emit_enter (u : string) (a : SiteMapCollector) :
  advances 1 0 a (emit (Enter u) a).
Proof.
  constructor; observe; try reflexivity; try lia.
  - eexists. split; [reflexivity|]. repeat constructor. cbn. lia.
  - exists []. now rewrite app_nil_r.
Qed.

Lemma advances_emit_get (u : string) (a : SiteMapCollector) :
  advances 0 1 a (emit (Get u) a).
Proof.
  constructor; observe; try reflexivity; try lia.
  - eexists. split; [reflexivity|]. repeat constructor. cbn. lia.
  - exists []. now rewrite app_nil_r.
Qed.

Lemma advances_store (u : string) (l : list string) (a : SiteMapCollector) :
  advances 0 0 a (store u l a).
Proof.
  constructor; observe; try reflexivity; try lia.
  - eexists. split; [reflexivity|]. repeat constructor. cbn. lia.
  - apply dict_keys_set.
Qed.

Lemma advances_incr (a : SiteMapCollector) :
  sitemap_count a < max_sitemaps a ->
  advances (-1) (- room (incr_count a)) a (incr_count a).
Proof.
  intros Hlt. pose proof (room_cases (incr_count a)) as Hr.
  constructor; observe; try reflexivity; try lia.
  - exists []. split; [now rewrite app_nil_r | constructor].
  - exists []. now rewrite app_nil_r.
Qed.

Section Traversal.
Context {net : requests.Net} {parser : bs4.Parser}.

Lemma _request_content_state (url : string) (a : SiteMapCollector) :
  snd (_request_content url a) = emit (Get url) a.
Proof.
  unfold _request_content.
  destruct (requests.get _ url) as [r|]; [destruct (requests.raise_for_status r)|];
    reflexivity.
Qed.

(** The loop over the links keeps what each call keeps. *)
Lemma for_links_advances
    (visit : string -> SiteMapCollector -> option SiteMapCollector) :
  (forall u a b, visit u a = Some b -> advances 1 (room a) a b) ->
  forall links a b, for_links visit links a = Some b -> advances 0 0 a b.
Proof.
  intros Hvisit links. induction links as [|link rest IH]; intros a b H.
  - injection H as <-. apply advances_refl.
  - cbn [for_links] in H.
    destruct (re.search_xml_end link && (sitemap_count a <? max_sitemaps a))
      eqn:Hcond.
    + apply andb_true_iff in Hcond as [_ Hlt]. apply Z.ltb_lt in Hlt.
      destruct (visit link (incr_count a)) as [a'|] eqn:Hv; [|discriminate].
      apply Hvisit in Hv. apply IH in H.
      pose proof (advances_incr a Hlt) as Hi.
      eapply advances_eq;
        [| |exact (advances_trans _ _ _ _ _ _ _
                     (advances_trans _ _ _ _ _ _ _ Hi Hv) H)]; lia.
    + now apply IH.
Qed.

Lemma parse_advances (fuel : nat) :
  forall u a b, parse fuel u a = Some b -> advances 1 (room a) a b.
Proof.
  induction fuel as [|fuel IH]; intros u a b H; cbn [parse] in H.
  - destruct (sitemap_count (emit (Enter u) a) >=? max_sitemaps (emit (Enter u) a))
      eqn:Hge; [|discriminate].
    injection H as <-. pose proof (room_cases a) as Hr.
    apply Z.geb_le in Hge. cbn in Hge.
    eapply advances_eq; [| |apply advances_emit_enter]; lia.
  - destruct (sitemap_count (emit (Enter u) a) >=? max_sitemaps (emit (Enter u) a))
      eqn:Hge.
    + injection H as <-. pose proof (room_cases a) as Hr.
      apply Z.geb_le in Hge. cbn in Hge.
      eapply advances_eq; [| |apply advances_emit_enter]; lia.
    + pose proof (_request_content_state u (emit (Enter u) a)) as Hreq.
      destruct (_request_content u (emit (Enter u) a)) as [x a1].
      cbn [snd] in Hreq. subst a1.
      destruct (for_links (parse fuel) (_extract_links x) _) as [a2|] eqn:Hloop;
        [|discriminate].
      injection H as <-.
      apply (for_links_advances _ IH) in Hloop.
      pose proof (room_cases a) as Hr.
      assert (Hlt : sitemap_count a < max_sitemaps a).
      { destruct (Z.geb_spec (sitemap_count (emit (Enter u) a))
                             (max_sitemaps (emit (Enter u) a)));
          [discriminate | cbn in *; lia]. }
      eapply advances_eq;
        [| |exact (advances_trans _ _ _ _ _ _ _
                     (advances_trans _ _ _ _ _ _ _
                        (advances_trans _ _ _ _ _ _ _
                           (advances_emit_enter u a)
                           (advances_emit_get u _)) Hloop)
                     (advances_store u _ _))]; lia.
Qed.

(** Two visit procedures that agree once the counter has moved on run the
    loop alike. *)
Lemma for_links_ext
    (v1 v2 : string -> SiteMapCollector -> option SiteMapCollector) :
  (forall u a b, v1 u a = Some b -> advances 1 (room a) a b) ->
  forall links a,
    (forall u s, max_sitemaps s = max_sitemaps a ->
                 sitemap_count a < sitemap_count s -> v1 u s = v2 u s) ->
    for_links v1 links a = for_links v2 links a.
Proof.
  intros Hadv links. induction links as [|link rest IH]; intros a Hagree.
  - reflexivity.
  - cbn [for_links].
    destruct (re.search_xml_end link && (sitemap_count a <? max_sitemaps a)).
    + rewrite <- (Hagree link (incr_count a)) by (cbn; lia).
      destruct (v1 link (incr_count a)) as [a'|] eqn:Hv; [|reflexivity].
      apply Hadv in Hv. destruct Hv as [_ Hmax _ Hmono _ _ _ _ _].
      cbn in Hmax, Hmono.
      apply IH. intros u s Hs Hlt. apply Hagree; lia.
    + now apply IH.
Qed.

Lemma for_links_total
    (visit : string -> SiteMapCollector -> option SiteMapCollector) :
  (forall u a b, visit u a = Some b -> advances 1 (room a) a b) ->
  forall links a,
    (forall u s, max_sitemaps s = max_sitemaps a ->
                 sitemap_count a < sitemap_count s ->
                 exists s', visit u s = Some s') ->
    exists b, for_links visit links a = Some b.
Proof.
  intros Hadv links. induction links as [|link rest IH]; intros a Htotal.
  - now exists a.
  - cbn [for_links].
    destruct (re.search_xml_end link && (sitemap_count a <? max_sitemaps a)).
    + destruct (Htotal link (incr_count a)) as [a' Hv]; [cbn; lia ..|].
      rewrite Hv. apply Hadv in Hv.
      destruct Hv as [_ Hmax _ Hmono _ _ _ _ _]. cbn in Hmax, Hmono.
      apply IH. intros u s Hs Hlt. apply Htotal; lia.
    + now apply IH.
Qed.

(** The bound of [parse] is never reached when it is at least
    [max_sitemaps - sitemap_count]. *)
Lemma parse_total (fuel : nat) :
  forall u a, max_sitemaps a - sitemap_count a <= Z.of_nat fuel ->
              exists b, parse fuel u a = Some b.
Proof.
  induction fuel as [|fuel IH]; intros u a Hfuel; cbn [parse].
  - destruct (Z.geb_spec (sitemap_count (emit (Enter u) a))
                         (max_sitemaps (emit (Enter u) a))) as [_|Hlt].
    + eauto.
    + cbn in Hlt. lia.
  - destruct (Z.geb_spec (sitemap_count (emit (Enter u) a))
                         (max_sitemaps (emit (Enter u) a))) as [_|Hlt].
    + eauto.
    + pose proof (_request_content_state u (emit (Enter u) a)) as Hreq.
      destruct (_request_content u (emit (Enter u) a)) as [x a1].
      cbn [snd] in Hreq. subst a1.
      destruct (for_links_total _ (parse_advances fuel) (_extract_links x)
                  (emit (Get u) (emit (Enter u) a))) as [a2 Hloop].
      * intros v s Hmax Hcount. apply IH. cbn in Hmax, Hcount, Hlt. lia.
      * rewrite Hloop. eauto.
Qed.

Lemma parse_fuel_irrelevant (fuel1 : nat) :
  forall fuel2 u a,
    max_sitemaps a - sitemap_count a <= Z.of_nat fuel1 ->
    max_sitemaps a - sitemap_count a <= Z.of_nat fuel2 ->
    parse fuel1 u a = parse fuel2 u a.
Proof.
  induction fuel1 as [|fuel1 IH]; intros [|fuel2] u a H1 H2; cbn [parse];
    destruct (Z.geb_spec (sitemap_count (emit (Enter u) a))
                         (max_sitemaps (emit (Enter u) a))) as [_|Hlt];
    try reflexivity; try (cbn in Hlt; lia).
  pose proof (_request_content_state u (emit (Enter u) a)) as Hreq.
  destruct (_request_content u (emit (Enter u) a)) as [x a1].
  cbn [snd] in Hreq. subst a1.
  rewrite (for_links_ext (parse fuel1) (parse fuel2) (parse_advances fuel1)).
  - reflexivity.
  - intros v s Hmax Hcount. cbn in Hmax, Hcount, Hlt. apply IH; lia.
Qed.

Lemma _parse_sitemap_advances (u : string) (a b : SiteMapCollector) :
  _parse_sitemap u a = Some b -> advances 1 (room a) a b.
Proof. apply parse_advances. Qed.

Lemma _parse_sitemap_total (u : string) (a : SiteMapCollector) :
  exists b, _parse_sitemap u a = Some b.
Proof. apply parse_total. lia. Qed.

(** [_parse_sitemap] satisfies the equation its source reads as: the
    recursive calls are calls of [_parse_sitemap] itself. *)
Lemma _parse_sitemap_eq (u : string) (a : SiteMapCollector) :
  _parse_sitemap u a =
  let a0 := emit (Enter u) a in
  if sitemap_count a0 >=? max_sitemaps a0 then Some a0
  else
    let (xml_content, a1) := _request_content u a0 in
    let found_urls := _extract_links xml_content in
    match for_links _parse_sitemap found_urls a1 with
    | Some a2 => Some (store u found_urls a2)
    | None => None
    end.
Proof.
  unfold _parse_sitemap at 1. cbv zeta.
  destruct (Z.to_nat (max_sitemaps a - sitemap_count a)) as [|fuel] eqn:Hfuel;
    cbn [parse];
    destruct (Z.geb_spec (sitemap_count (emit (Enter u) a))
                         (max_sitemaps (emit (Enter u) a))) as [_|Hlt];
    try reflexivity; try (cbn in Hlt; lia).
  pose proof (_request_content_state u (emit (Enter u) a)) as Hreq.
  destruct (_request_content u (emit (Enter u) a)) as [x a1].
  cbn [snd] in Hreq. subst a1.
  rewrite (for_links_ext (parse fuel) _parse_sitemap (parse_advances fuel)).
  - reflexivity.
  - intros v s Hmax Hcount. cbn in Hmax, Hcount, Hlt.
    unfold _parse_sitemap. apply parse_fuel_irrelevant; lia.
Qed.

(** The loop over the lines of robots.txt. *)
Lemma for_lines_total (lines : list string) :
  forall a, exists o, for_lines lines a = Some o.
Proof.
  induction lines as [|line rest IH]; intros a; cbn [for_lines].
  - eauto.
  - destruct (PyStr.startswith line "Sitemap:"); [|apply IH].
    destruct (nth_error (PyStr.split line ": ") 1); [|eauto].
    destruct (sitemap_count a <? max_sitemaps a); [|apply IH].
    destruct (_parse_sitemap_total (PyStr.strip s) (incr_count a)) as [b ->].
    apply IH.
Qed.

Lemma for_lines_advances (lines : list string) :
  forall a o, for_lines lines a = Some o -> advances 0 0 a (state_of o).
Proof.
  induction lines as [|line rest IH]; intros a o H; cbn [for_lines] in H.
  - injection H as <-. apply advances_refl.
  - destruct (PyStr.startswith line "Sitemap:"); [|now apply IH].
    destruct (nth_error (PyStr.split line ": ") 1);
      [|injection H as <-; apply advances_refl].
    destruct (Z.ltb_spec (sitemap_count a) (max_sitemaps a)) as [Hlt|_];
      [|now apply IH].
    destruct (_parse_sitemap (PyStr.strip s) (incr_count a)) as [b|] eqn:Hv;
      [|discriminate].
    apply _parse_sitemap_advances in Hv. apply IH in H.
    eapply advances_eq;
      [| |exact (advances_trans _ _ _ _ _ _ _
                   (advances_trans _ _ _ _ _ _ _ (advances_incr a Hlt) Hv) H)];
      lia.
Qed.

(** What a whole traversal guarantees. *)
Lemma __init___summary (base : string) (B : Z) (ua : option (list string)) :
  exists o tr,
    __init__ base B ua = Some o
    /\ max_sitemaps (state_of o) = B
    /\ 0 <= sitemap_count (state_of o) <= Z.max 0 B
    /\ trace (state_of o) = (Get (base ++ "/robots.txt"), 0) :: tr
    /\ Forall (fun ev => snd ev <= Z.max 0 B) tr
    /\ Z.of_nat (List.length (enters tr)) = sitemap_count (state_of o)
    /\ Z.of_nat (List.length (gets tr)) <= Z.max 0 (B - 1).
Proof.
  unfold __init__, _search_sitemaps.
  set (a := {| base_site := base; collected_data := []; sitemap_count := 0;
               max_sitemaps := B; agents := _; trace := [] |}).
  change (base_site a) with base.
  pose proof (_request_content_state (base ++ "/robots.txt") a) as Hreq.
  destruct (_request_content (base ++ "/robots.txt") a) as [x a1].
  cbn [snd] in Hreq. subst a1.
  destruct (for_lines_total (PyStr.splitlines x)
              (emit (Get (base ++ "/robots.txt")) a)) as [o Ho].
  pose proof (for_lines_advances _ _ _ Ho) as
    [_ Hmax _ Hmono Hcap Hent Hget [tr [Htr Hall]] _].
  exists o, tr. split; [exact Ho|].
  subst a. unfold n_gets, n_enters, credit in *. rewrite Htr in *.
  cbn [emit trace sitemap_count max_sitemaps gets enters List.length app fst]
    in *.
  rewrite ?Nat2Z.inj_succ in *.
  repeat split; try assumption; try lia.
Qed.

End Traversal.

(* ================================================================= *)
(** ** The visit budget *)

Section Budget.
Context {net : requests.Net} {parser : bs4.Parser}.

(** C1 -- budget invariant.  For every budget [B >= 1], whatever the site
    answers and whatever links its documents declare, the traversal
    returns, it requests at most [B] sitemap documents after robots.txt,
    and [sitemap_count] never exceeds [max_sitemaps]: at every event of the
    traversal and at its end the counter is at most [B].  (The counter only
    changes by the increment that precedes a call of [_parse_sitemap], and
    the call's first event records the new value.) *)
Theorem budget_invariant (base : string) (B : Z) (ua : option (list string)) :
  1 <= B ->
  exists o sitemap_requests,
    __init__ base B ua = Some o
    /\ gets (trace (state_of o)) = (base ++ "/robots.txt") :: sitemap_requests
    /\ Z.of_nat (List.length sitemap_requests) <= B
    /\ Forall (fun ev => snd ev <= B) (trace (state_of o))
    /\ sitemap_count (state_of o) <= max_sitemaps (state_of o)
    /\ max_sitemaps (state_of o) = B.
Proof.
  intros HB.
  destruct (__init___summary base B ua)
    as (o & tr & Hrun & Hmax & Hcount & Htr & Hall & _ & Hgets).
  exists o, (gets tr). rewrite Htr. cbn [gets].
  repeat split; try assumption; try lia.
  constructor; [cbn; lia|].
  eapply Forall_impl; [|exact Hall]. cbv beta. intros ev Hev. lia.
Qed.

(** C10 -- the last unit of the budget buys no fetch.  For every budget
    [B >= 1] the traversal requests at most [B - 1] sitemap documents after
    robots.txt; a call of [_parse_sitemap] that finds the counter at the
    maximum returns at once, without a request and without an entry. *)
Theorem fetches_at_most_budget_minus_one
    (base : string) (B : Z) (ua : option (list string)) :
  1 <= B ->
  (exists o sitemap_requests,
      __init__ base B ua = Some o
      /\ gets (trace (state_of o)) = (base ++ "/robots.txt") :: sitemap_requests
      /\ Z.of_nat (List.length sitemap_requests) <= B - 1)
  /\ (forall u a, max_sitemaps a <= sitemap_count a ->
                  _parse_sitemap u a = Some (emit (Enter u) a)).
Proof.
  intros HB. split.
  - destruct (__init___summary base B ua)
      as (o & tr & Hrun & _ & _ & Htr & _ & _ & Hgets).
    exists o, (gets tr). rewrite Htr. cbn [gets].
    repeat split; try assumption; lia.
  - intros u a Hfull. rewrite _parse_sitemap_eq. cbv zeta.
    destruct (Z.geb_spec (sitemap_count (emit (Enter u) a))
                         (max_sitemaps (emit (Enter u) a))) as [_|Hlt].
    + reflexivity.
    + cbn in Hlt. lia.
Qed.

(** C7 -- termination.  For every site, cyclic or not, and every budget
    [B], the traversal returns; [_parse_sitemap] is called at most [B]
    times in all (not at all when [B <= 0]), each call having taken one
    unit from the one counter: the number of calls is the final value of
    [sitemap_count]. *)
Theorem traversal_terminates (base : string) (B : Z) (ua : option (list string)) :
  exists o,
    __init__ base B ua = Some o
    /\ Z.of_nat (List.length (enters (trace (state_of o)))) <= Z.max 0 B
    /\ Z.of_nat (List.length (enters (trace (state_of o))))
       = sitemap_count (state_of o).
Proof.
  destruct (__init___summary base B ua)
    as (o & tr & Hrun & _ & Hcount & Htr & _ & Hent & _).
  exists o. rewrite Htr. cbn [enters fst]. repeat split; try assumption; lia.
Qed.

(** C9 -- robots.txt out of reach.  When the request of
    [{base_site}/robots.txt] raises a [RequestException] (connection error,
    or an error status through [raise_for_status]), the constructor returns
    normally with an empty [collected_data]: no line is read, no sitemap is
    visited. *)
Theorem robots_failure_gives_empty_mapping
    (base : string) (B : Z) (ua : option (list string)) :
  fetch_fails 0 (base ++ "/robots.txt") ->
  exists self,
    __init__ base B ua = Some (Normal self)
    /\ collected_data self = []
    /\ sitemap_count self = 0
    /\ trace self = [(Get (base ++ "/robots.txt"), 0)].
Proof.
  unfold fetch_fails, __init__, _search_sitemaps, _request_content.
  cbn [base_site trace gets List.length]. intros Hfail.
  destruct (requests.get 0 (base ++ "/robots.txt")) as [r|].
  - rewrite Hfail. cbn. eauto.
  - cbn. eauto.
Qed.

End Budget.

(* ================================================================= *)
(** ** One visit *)

Section Visit.
Context {net : requests.Net} {parser : bs4.Parser}.

(** A visit that finds the counter below the maximum: the request, the loop
    over the declared links, and last the assignment of the entry. *)
Lemma visit_below_max (u : string) (a : SiteMapCollector) :
  sitemap_count a < max_sitemaps a ->
  exists a2,
    let found_urls :=
      _extract_links (fst (_request_content u (emit (Enter u) a))) in
    for_links _parse_sitemap found_urls (emit (Get u) (emit (Enter u) a))
    = Some a2
    /\ _parse_sitemap u a = Some (store u found_urls a2)
    /\ advances 0 0 (emit (Get u) (emit (Enter u) a)) a2.
Proof.
  intros Hlt. cbv zeta. rewrite _parse_sitemap_eq. cbv zeta.
  destruct (Z.geb_spec (sitemap_count (emit (Enter u) a))
                       (max_sitemaps (emit (Enter u) a))) as [Hge|_];
    [cbn in Hge; lia|].
  pose proof (_request_content_state u (emit (Enter u) a)) as Hreq.
  destruct (_request_content u (emit (Enter u) a)) as [x a1].
  cbn [fst snd] in *. subst a1.
  destruct (for_links_total _parse_sitemap _parse_sitemap_advances
              (_extract_links x) (emit (Get u) (emit (Enter u) a)))
    as [a2 Hloop].
  - intros v s _ _. apply _parse_sitemap_total.
  - exists a2. rewrite Hloop. split; [reflexivity|]. split; [reflexivity|].
    apply (for_links_advances _ _parse_sitemap_advances _ _ _ Hloop).
Qed.

(** What [_request_content] returns when the request fails. *)
Lemma _request_content_failed (u : string) (a : SiteMapCollector) :
  fetch_fails (List.length (gets (trace a))) u ->
  fst (_request_content u a) = "".
Proof.
  unfold fetch_fails, _request_content. intros Hfail.
  destruct (requests.get _ u) as [r|]; [rewrite Hfail|]; reflexivity.
Qed.

Lemma _request_content_ok (u : string) (a : SiteMapCollector)
    (response : requests.Response) :
  requests.get (List.length (gets (trace a))) u = requests.Returns response ->
  requests.raise_for_status response = false ->
  fst (_request_content u a) = requests.text response.
Proof.
  unfold _request_content. intros -> ->. reflexivity.
Qed.

Lemma gets_emit_enter (u : string) (a : SiteMapCollector) :
  gets (trace (emit (Enter u) a)) = gets (trace a).
Proof. cbn. rewrite gets_app. cbn. apply app_nil_r. Qed.

(** C3, as the code has it, visit by visit -- a visit whose request fails
    records an entry all the same: when the visit returns, the address is
    mapped to the links of the empty document, that is to no link at all;
    no child is visited, the counter does not move, and the entries of the
    other addresses are left as they were. *)
Theorem failed_fetch_records_empty_entry (u : string) (a : SiteMapCollector) :
  sitemap_count a < max_sitemaps a ->
  fetch_fails (List.length (gets (trace a))) u ->
  bs4.find_all (bs4.BeautifulSoup "" "xml") "loc" = [] ->
  exists b,
    _parse_sitemap u a = Some b
    /\ PyDict.get u (collected_data b) = Some []
    /\ (forall k, k <> u ->
          PyDict.get k (collected_data b) = PyDict.get k (collected_data a))
    /\ sitemap_count b = sitemap_count a
    /\ trace b
       = (trace a
          ++ [(Enter u, sitemap_count a); (Get u, sitemap_count a);
              (Store u, sitemap_count a)])%list.
Proof.
  intros Hlt Hfail Hempty.
  destruct (visit_below_max u a Hlt) as (a2 & Hloop & Hrun & _).
  cbv zeta in *.
  rewrite _request_content_failed in * by now rewrite gets_emit_enter.
  unfold _extract_links in *. rewrite Hempty in *. cbn [map for_links] in *.
  injection Hloop as <-. eexists. split; [exact Hrun|].
  cbn [store emit collected_data sitemap_count trace].
  repeat split.
  - apply dict_get_set_same.
  - intros k Hk. now apply dict_get_set_other.
  - now rewrite <- !app_assoc.
Qed.

(** C5, as the code has it -- the entry of a document is assigned after the
    recursive visits of its links have all returned.  A visit that fetches
    first runs the loop over the declared links, from the collector as the
    request left it to [a2]: [tr] are the events of the children and [ks]
    the keys they added to [collected_data].  Only then is the entry
    assigned, as the last event of the visit; the address of the parent,
    when it is a new key, comes after the keys of its children, and when it
    is already a key it stays where it was. *)
Theorem entry_recorded_after_children (u : string) (a : SiteMapCollector) :
  sitemap_count a < max_sitemaps a ->
  exists found_urls a2 tr ks,
    found_urls = _extract_links (fst (_request_content u (emit (Enter u) a)))
    /\ for_links _parse_sitemap found_urls (emit (Get u) (emit (Enter u) a))
       = Some a2
    /\ trace a2
       = (trace a
          ++ (Enter u, sitemap_count a) :: (Get u, sitemap_count a) :: tr)%list
    /\ PyDict.keys (collected_data a2)
       = (PyDict.keys (collected_data a) ++ ks)%list
    /\ _parse_sitemap u a = Some (store u found_urls a2)
    /\ trace (store u found_urls a2)
       = (trace a2 ++ [(Store u, sitemap_count a2)])%list
    /\ (~ In u (PyDict.keys (collected_data a2)) ->
          PyDict.keys (collected_data (store u found_urls a2))
          = (PyDict.keys (collected_data a2) ++ [u])%list)
    /\ (In u (PyDict.keys (collected_data a2)) ->
          PyDict.keys (collected_data (store u found_urls a2))
          = PyDict.keys (collected_data a2)).
Proof.
  intros Hlt.
  destruct (visit_below_max u a Hlt) as (a2 & Hloop & Hrun & Hadv).
  cbv zeta in *.
  destruct Hadv as [_ _ _ _ _ _ _ [tr [Htr _]] [ks Hks]].
  cbn [emit trace collected_data sitemap_count] in Htr, Hks.
  eexists. exists a2, tr, ks.
  split; [reflexivity|].
  split; [exact Hloop|]. split; [|split; [exact Hks|]].
  - rewrite Htr, <- !app_assoc. reflexivity.
  - split; [exact Hrun|]. split; [reflexivity|]. split.
    + apply dict_keys_set_new.
    + apply dict_keys_set_old.
Qed.

(** C6 -- order preservation.  When the document at [u] is fetched, the
    entry recorded for [u] is the list of the texts of its [loc] tags as
    [find_all] gives them, in document order: the same elements at the same
    positions, none merged, none dropped. *)
Theorem declared_links_recorded_in_order
    (u : string) (a : SiteMapCollector) (response : requests.Response) :
  sitemap_count a < max_sitemaps a ->
  requests.get (List.length (gets (trace a))) u = requests.Returns response ->
  requests.raise_for_status response = false ->
  exists b,
    _parse_sitemap u a = Some b
    /\ PyDict.get u (collected_data b)
       = Some (map bs4.text
                 (bs4.find_all
                    (bs4.BeautifulSoup (requests.text response) "xml") "loc")).
Proof.
  intros Hlt Hget Hstatus.
  destruct (visit_below_max u a Hlt) as (a2 & _ & Hrun & _).
  cbv zeta in *.
  rewrite (_request_content_ok u _ response) in Hrun
    by (rewrite ?gets_emit_enter; assumption).
  eexists. split; [exact Hrun|].
  cbn [store collected_data]. apply dict_get_set_same.
Qed.

Lemma for_links_nothing_to_do (links : list string) (a : SiteMapCollector) :
  max_sitemaps a <= sitemap_count a
  \/ Forall (fun l => re.search_xml_end l = false) links ->
  for_links _parse_sitemap links a = Some a.
Proof.
  intros H. induction links as [|link rest IH]; cbn [for_links].
  - reflexivity.
  - replace (re.search_xml_end link && (sitemap_count a <? max_sitemaps a))
      with false.
    + apply IH. destruct H as [H|H]; [now left|right; now inversion H].
    + symmetry. apply andb_false_iff. destruct H as [H|H].
      * right. apply Z.ltb_ge. exact H.
      * left. now inversion H.
Qed.

(** A call of [_parse_sitemap] is the first event of that call. *)
Lemma _parse_sitemap_first_event (u : string) (a b : SiteMapCollector) :
  _parse_sitemap u a = Some b ->
  exists tr, trace b = (trace a ++ (Enter u, sitemap_count a) :: tr)%list.
Proof.
  rewrite _parse_sitemap_eq. cbv zeta. intros Hrun.
  destruct (sitemap_count (emit (Enter u) a) >=? max_sitemaps (emit (Enter u) a)).
  - injection Hrun as <-. now exists [].
  - pose proof (_request_content_state u (emit (Enter u) a)) as Hreq.
    destruct (_request_content u (emit (Enter u) a)) as [x s1].
    cbn [snd] in Hreq. subst s1.
    destruct (for_links _parse_sitemap (_extract_links x) _) as [a2|] eqn:Hloop;
      [|discriminate].
    injection Hrun as <-.
    apply (for_links_advances _ _parse_sitemap_advances) in Hloop.
    destruct Hloop as [_ _ _ _ _ _ _ [tr [Htr _]] _].
    cbn [store emit trace sitemap_count] in *.
    eexists. rewrite Htr, <- !app_assoc. cbn [app]. reflexivity.
Qed.

(** C8, as the code has it -- which links are visited.  Let [a] be the
    collector when the loop of [_parse_sitemap] comes to [link], and [a1]
    the collector when the loop goes on to the next link.  If [link] ends
    with ".xml", or with ".xml" and one final newline (the pattern
    [\.xml$]), and the counter is below the maximum, then the counter is
    incremented and [_parse_sitemap link] is called: the next event is that
    call.  Otherwise nothing happens: [a1] is [a].  The loop does nothing
    at all once the counter has reached the maximum, or when no link
    matches. *)
Theorem link_visited_iff (link : string) (rest : list string)
    (a : SiteMapCollector) :
  exists a1,
    for_links _parse_sitemap (link :: rest) a
    = for_links _parse_sitemap rest a1
    /\ (((exists p, link = p ++ ".xml"
                    \/ link = p ++ ".xml" ++ String PyStr.LF "")
         /\ sitemap_count a < max_sitemaps a) ->
        _parse_sitemap link (incr_count a) = Some a1
        /\ sitemap_count a < sitemap_count a1
        /\ exists tr,
             trace a1 = (trace a ++ (Enter link, sitemap_count a + 1) :: tr)%list)
    /\ (~ ((exists p, link = p ++ ".xml"
                      \/ link = p ++ ".xml" ++ String PyStr.LF "")
           /\ sitemap_count a < max_sitemaps a) ->
        a1 = a)
    /\ (forall links,
          max_sitemaps a <= sitemap_count a
          \/ Forall (fun l => re.search_xml_end l = false) links ->
          for_links _parse_sitemap links a = Some a).
Proof.
  pose proof (search_xml_end_spec link) as Hspec.
  assert (Hstep :
    for_links _parse_sitemap (link :: rest) a
    = if re.search_xml_end link && (sitemap_count a <? max_sitemaps a)
      then match _parse_sitemap link (incr_count a) with
           | Some a' => for_links _parse_sitemap rest a'
           | None => None
           end
      else for_links _parse_sitemap rest a) by reflexivity.
  destruct (re.search_xml_end link) eqn:Hpat;
    destruct (Z.ltb_spec (sitemap_count a) (max_sitemaps a)) as [Hlt|Hge];
    cbn [andb] in Hstep.
  2-4: exists a; split; [exact Hstep|]; split; [|split];
       [ intros [Hp Hc]; apply Hspec in Hp; try discriminate; lia
       | reflexivity
       | intros links; apply for_links_nothing_to_do ].
  destruct (_parse_sitemap_total link (incr_count a)) as [a1 Hrun].
  exists a1. rewrite Hrun in Hstep.
  split; [exact Hstep|]. split; [|split].
  - intros _. split; [exact Hrun|]. split.
    + apply _parse_sitemap_advances in Hrun.
      destruct Hrun as [_ _ _ Hmono _ _ _ _ _]. cbn in Hmono. lia.
    + apply _parse_sitemap_first_event in Hrun. exact Hrun.
  - intros Hno. exfalso. apply Hno. split; [now apply Hspec|assumption].
  - intros links. apply for_links_nothing_to_do.
Qed.

End Visit.

(* ================================================================= *)
(** ** The traversal on small sites *)

(** C2 -- with a budget of 1 no sitemap is fetched.  robots.txt declares
    a.xml, the counter goes to 1, and [_parse_sitemap] of a.xml returns at
    once because the counter has reached the maximum: the only request is
    that of robots.txt and [collected_data] stays empty. *)
Theorem budget_one_fetches_no_sitemap :
  exists self,
    Site.crawl Site.nested 1 = Some (Normal self)
    /\ gets (trace self) = ["http://x/robots.txt"]
    /\ enters (trace self) = ["http://x/a.xml"]
    /\ collected_data self = []
    /\ sitemap_count self = 1%Z.
Proof.
  eexists. split; [vm_compute; reflexivity|]. repeat split.
Qed.

(** With a budget of 2 the run is the one C2 describes for 1: a.xml is the
    only sitemap fetched, b.xml is called but not requested. *)
Example budget_two_fetches_one_sitemap :
  exists self,
    Site.crawl Site.nested 2 = Some (Normal self)
    /\ gets (trace self) = ["http://x/robots.txt"; "http://x/a.xml"]
    /\ PyDict.keys (collected_data self) = ["http://x/a.xml"].
Proof.
  eexists. split; [vm_compute; reflexivity|]. repeat split.
Qed.

(** C4 -- a line that starts with "Sitemap:" and has no ": " in it makes
    [line.split(": ")[1]] raise IndexError, which nothing catches. *)
Theorem sitemap_line_without_space_raises :
  exists self,
    Site.crawl Site.no_space 5 = Some (Raised IndexError self)
    /\ PyStr.splitlines "Sitemap:http://x/a.xml" = ["Sitemap:http://x/a.xml"]
    /\ PyStr.startswith "Sitemap:http://x/a.xml" "Sitemap:" = true
    /\ PyStr.split "Sitemap:http://x/a.xml" ": " = ["Sitemap:http://x/a.xml"].
Proof.
  eexists. split; [vm_compute; reflexivity|]. repeat split.
Qed.

(** C3 fails as stated: b.xml cannot be reached, it is visited, and
    [collected_data] has an entry for it, with no link. *)
Lemma unreachable_sitemap_has_entry :
  exists self,
    Site.crawl Site.dead_child 5 = Some (Normal self)
    /\ gets (trace self)
       = ["http://x/robots.txt"; "http://x/a.xml"; "http://x/b.xml"]
    /\ @fetch_fails (Site.serve Site.dead_child) 2 "http://x/b.xml"
    /\ PyDict.get "http://x/b.xml" (collected_data self) = Some [].
Proof.
  eexists. split; [vm_compute; reflexivity|]. repeat split.
Qed.

(** C5 fails as stated: the entry of b.xml, the child, is assigned before
    that of a.xml, its parent, and precedes it in [collected_data]. *)
Lemma child_entry_precedes_parent :
  exists self,
    Site.crawl Site.nested 5 = Some (Normal self)
    /\ trace self
       = [(Get "http://x/robots.txt", 0); (Enter "http://x/a.xml", 1);
          (Get "http://x/a.xml", 1); (Enter "http://x/b.xml", 2);
          (Get "http://x/b.xml", 2); (Store "http://x/b.xml", 2);
          (Store "http://x/a.xml", 2)]%Z
    /\ collected_data self
       = [("http://x/b.xml", ["http://x/p2"]);
          ("http://x/a.xml", ["http://x/b.xml"; "http://x/p1"])].
Proof.
  eexists. split; [vm_compute; reflexivity|]. repeat split.
Qed.

(** C8 fails as stated: the link declared by a.xml ends with a newline, not
    with ".xml", and it is visited and requested. *)
Lemma link_with_final_newline_is_visited :
  PyStr.endswith Site.b_newline ".xml" = false
  /\ exists self,
       Site.crawl Site.newline_link 5 = Some (Normal self)
       /\ enters (trace self) = ["http://x/a.xml"; Site.b_newline]
       /\ gets (trace self)
          = ["http://x/robots.txt"; "http://x/a.xml"; Site.b_newline].
Proof.
  split; [reflexivity|].
  eexists. split; [vm_compute; reflexivity|]. repeat split.
Qed.

(** A sitemap that declares itself, budget 3: three calls, two requests of
    a.xml, one entry. *)
Example cyclic_site_budget_three :
  exists self,
    Site.crawl Site.cyclic 3 = Some (Normal self)
    /\ enters (trace self)
       = ["http://x/a.xml"; "http://x/a.xml"; "http://x/a.xml"]
    /\ gets (trace self)
       = ["http://x/robots.txt"; "http://x/a.xml"; "http://x/a.xml"]
    /\ collected_data self = [("http://x/a.xml", ["http://x/a.xml"])].
Proof.
  eexists. split; [vm_compute; reflexivity|]. repeat split.
Qed.

(* ================================================================= *)
(** ** The theorems at work on the small sites *)

Lemma budget_invariant_on_cyclic_site :
  (1 <= 3)%Z
  /\ exists o sitemap_requests,
       Site.crawl Site.cyclic 3 = Some o
       /\ gets (trace (state_of o)) = "http://x/robots.txt" :: sitemap_requests
       /\ (Z.of_nat (List.length sitemap_requests) <= 3)%Z
       /\ Forall (fun ev => (snd ev <= 3)%Z) (trace (state_of o))
       /\ (sitemap_count (state_of o) <= max_sitemaps (state_of o))%Z
       /\ max_sitemaps (state_of o) = 3%Z.
Proof.
  split; [lia|].
  apply (@budget_invariant (Site.serve Site.cyclic) Site.flat_xml
           "http://x" 3 None).
  lia.
Defined.

Lemma fetches_at_most_budget_minus_one_on_nested_site :
  (1 <= 2)%Z
  /\ exists o sitemap_requests,
       Site.crawl Site.nested 2 = Some o
       /\ gets (trace (state_of o)) = "http://x/robots.txt" :: sitemap_requests
       /\ (Z.of_nat (List.length sitemap_requests) <= 2 - 1)%Z.
Proof.
  split; [lia|].
  apply (@fetches_at_most_budget_minus_one (Site.serve Site.nested)
           Site.flat_xml "http://x" 2 None).
  lia.
Defined.

Lemma robots_failure_on_empty_site :
  @fetch_fails (Site.serve []) 0 "http://x/robots.txt"
  /\ exists self,
       Site.crawl [] 10 = Some (Normal self)
       /\ collected_data self = []
       /\ sitemap_count self = 0%Z
       /\ trace self = [(Get "http://x/robots.txt", 0%Z)].
Proof.
  split; [exact I|].
  apply (@robots_failure_gives_empty_mapping (Site.serve []) Site.flat_xml
           "http://x" 10 None).
  exact I.
Defined.

Lemma failed_fetch_on_dead_child :
  exists b,
    @_parse_sitemap (Site.serve Site.dead_child) Site.flat_xml
      "http://x/b.xml" (Site.first_visit 5) = Some b
    /\ PyDict.get "http://x/b.xml" (collected_data b) = Some []
    /\ sitemap_count b = 1%Z.
Proof.
  destruct (@failed_fetch_records_empty_entry
              (Site.serve Site.dead_child) Site.flat_xml
              "http://x/b.xml" (Site.first_visit 5))
    as (b & Hrun & Hentry & _ & Hcount & _).
  - cbn. lia.
  - exact I.
  - reflexivity.
  - exists b. repeat split; assumption.
Defined.

Lemma entry_recorded_after_children_on_nested_site :
  exists b ks,
    @_parse_sitemap (Site.serve Site.nested) Site.flat_xml
      "http://x/a.xml" (Site.first_visit 5) = Some b
    /\ PyDict.keys (collected_data b) = (ks ++ ["http://x/a.xml"])%list.
Proof.
  destruct (@entry_recorded_after_children
              (Site.serve Site.nested) Site.flat_xml
              "http://x/a.xml" (Site.first_visit 5))
    as (found_urls & a2 & tr & ks & -> & Hloop & _ & Hks & Hrun & _ & Hnew & _).
  - cbn. lia.
  - eexists. exists ks. split; [exact Hrun|].
    rewrite Hnew; [now rewrite Hks|].
    vm_compute in Hloop. injection Hloop as <-. vm_compute.
    intros [H|[]]. discriminate H.
Defined.

Lemma declared_links_recorded_in_order_on_repeated_site :
  exists b,
    @_parse_sitemap (Site.serve Site.repeated) Site.flat_xml
      "http://x/pages.xml" (Site.first_visit 5) = Some b
    /\ PyDict.get "http://x/pages.xml" (collected_data b)
       = Some ["http://x/p1"; "http://x/p1"; "http://x/p2"].
Proof.
  apply (@declared_links_recorded_in_order
           (Site.serve Site.repeated) Site.flat_xml
           "http://x/pages.xml" (Site.first_visit 5)
           {| requests.raise_for_status := false;
              requests.text := Site.pages_xml |}).
  - cbn. lia.
  - reflexivity.
  - reflexivity.
Defined.

(* ================================================================= *)
(** ** More on strings: [split], [replace], [in] *)

Local Open Scope string_scope.

Lemma append_assoc (a b c : string) : (a ++ b) ++ c = a ++ (b ++ c).
Proof. induction a as [|x a IH]; cbn; [reflexivity | now rewrite IH]. Qed.

Lemma append_nil_r (a : string) : a ++ "" = a.
Proof. induction a as [|x a IH]; cbn; [reflexivity | now rewrite IH]. Qed.

Lemma length_append (a b : string) :
  String.length (a ++ b) = (String.length a + String.length b)%nat.
Proof. induction a as [|x a IH]; cbn; [reflexivity | now rewrite IH]. Qed.

Lemma prefix_spec (p s : string) :
  String.prefix p s = true <-> exists q, s = p ++ q.
Proof.
  revert p. induction s as [|c s IH]; intros [|d p]; cbn.
  - split; [now exists "" | reflexivity].
  - split; [discriminate | now intros [q H]].
  - split; [now exists (String c s) | reflexivity].
  - destruct (ascii_dec d c) as [->|Hne].
    + rewrite IH. split; intros [q H]; exists q; congruence.
    + split; [discriminate | intros [q H]; congruence].
Qed.

Lemma occurs_empty (sub : string) : sub <> "" -> ~ PyStr.occurs sub "".
Proof.
  intros Hsub (p & q & H). destruct p; [destruct sub|]; cbn in H; congruence.
Qed.

(** An occurrence in [c :: s] starts at [c] or lies in [s]. *)
Lemma occurs_cons (sub : string) (c : ascii) (s : string) :
  sub <> "" ->
  PyStr.occurs sub (String c s)
  <-> String.prefix sub (String c s) = true \/ PyStr.occurs sub s.
Proof.
  intros Hsub. split.
  - intros ([|d p] & q & H); cbn [append] in H.
    + left. apply prefix_spec. now exists q.
    + right. exists p, q. congruence.
  - intros [H|(p & q & ->)].
    + apply prefix_spec in H as [q H]. exists "", q. exact H.
    + now exists (String c p), q.
Qed.

Lemma split_go_nonempty (sep : string) (skip : nat) (cur s : string) :
  PyStr.split_go sep skip cur s <> [].
Proof.
  revert skip cur. induction s as [|c s IH]; intros skip cur; cbn [PyStr.split_go].
  - discriminate.
  - destruct skip; [destruct (String.prefix sep (String c s))|];
      [discriminate | apply IH | apply IH].
Qed.

(** Without an occurrence of the separator there is one piece. *)
Lemma split_go_whole (sep cur s : string) :
  sep <> "" -> ~ PyStr.occurs sep s ->
  PyStr.split_go sep 0 cur s = [cur ++ s].
Proof.
  intros Hsep. revert cur. induction s as [|c s IH]; intros cur Hno;
    cbn [PyStr.split_go].
  - now rewrite append_nil_r.
  - destruct (String.prefix sep (String c s)) eqn:Hp.
    + exfalso. apply Hno. apply occurs_cons; auto.
    + rewrite IH.
      * now rewrite append_assoc.
      * intros Hocc. apply Hno. apply occurs_cons; auto.
Qed.

(** With an occurrence there are at least two. *)
Lemma split_go_two (sep cur s : string) :
  sep <> "" -> PyStr.occurs sep s ->
  exists x y l, PyStr.split_go sep 0 cur s = x :: y :: l.
Proof.
  intros Hsep. revert cur. induction s as [|c s IH]; intros cur Hocc.
  - now apply occurs_empty in Hocc.
  - cbn [PyStr.split_go]. destruct (String.prefix sep (String c s)) eqn:Hp.
    + destruct (PyStr.split_go sep (String.length sep - 1) "" s) as [|y l] eqn:E.
      * now apply split_go_nonempty in E.
      * now exists cur, y, l.
    + apply IH. apply occurs_cons in Hocc as [H|H]; [congruence|assumption|assumption].
Qed.

(** [s.split(sep)[1]] raises IndexError exactly when [sep] is not in [s]. *)
Lemma split_second_none (s sep : string) :
  sep <> "" ->
  nth_error (PyStr.split s sep) 1 = None <-> ~ PyStr.occurs sep s.
Proof.
  intros Hsep. unfold PyStr.split. split.
  - intros Hnone Hocc.
    destruct (split_go_two sep "" s Hsep Hocc) as (x & y & l & E).
    rewrite E in Hnone. discriminate.
  - intros Hno. now rewrite split_go_whole.
Qed.

Lemma split_second_some (s sep : string) :
  sep <> "" ->
  nth_error (PyStr.split s sep) 1 <> None <-> PyStr.occurs sep s.
Proof.
  intros Hsep. split.
  - unfold PyStr.split. generalize "". induction s as [|c s IH]; intros cur H.
    + now contradiction H.
    + cbn [PyStr.split_go] in H.
      destruct (String.prefix sep (String c s)) eqn:Hp;
        apply occurs_cons; eauto.
  - intros Hocc Hnone. now apply split_second_none in Hnone.
Qed.

(** The characters of a separator just found are passed over. *)
Lemma split_go_skip (sep t cur s : string) :
  PyStr.split_go sep (String.length t) cur (t ++ s) = PyStr.split_go sep 0 cur s.
Proof.
  induction t as [|c t IH]; cbn [String.length append PyStr.split_go];
    [reflexivity | exact IH].
Qed.

(** A separator at the head ends the piece being read. *)
Lemma split_go_hit (sep cur s : string) :
  sep <> "" ->
  PyStr.split_go sep 0 cur (sep ++ s) = cur :: PyStr.split_go sep 0 "" s.
Proof.
  intros Hsep. destruct sep as [|c sep]; [congruence|].
  cbn [append PyStr.split_go].
  replace (String.prefix (String c sep) (String c (sep ++ s))) with true
    by (symmetry; apply prefix_spec; now exists s).
  replace (String.length (String c sep) - 1)%nat with (String.length sep)
    by (cbn [String.length]; lia).
  now rewrite split_go_skip.
Qed.

(** The first ": " after a text that has none: the two characters differ,
    so no occurrence can begin in the text and end in the separator. *)
Lemma split_go_colon_space_first (u cur rest : string) :
  ~ PyStr.occurs ": " u ->
  PyStr.split_go ": " 0 cur (u ++ ": " ++ rest)
  = (cur ++ u) :: PyStr.split_go ": " 0 "" rest.
Proof.
  revert cur. induction u as [|c u IH]; intros cur Hno.
  - rewrite append_nil_r. change ("" ++ ": " ++ rest) with (": " ++ rest).
    apply split_go_hit. discriminate.
  - assert (Hu : ~ PyStr.occurs ": " u).
    { intros H. apply Hno. apply occurs_cons; [discriminate | now right]. }
    assert (Hp : String.prefix ": " (String c (u ++ ": " ++ rest)) = false).
    { destruct (String.prefix ": " (String c (u ++ ": " ++ rest))) eqn:Hp;
        [|reflexivity].
      exfalso. apply prefix_spec in Hp as [q Hq].
      cbn [append] in Hq. injection Hq as -> Hq.
      destruct u as [|d u]; cbn [append] in Hq; injection Hq as Hd Hq.
      - discriminate Hd.
      - subst d. apply Hno. exists "", u. reflexivity. }
    cbn [append PyStr.split_go]. cbn [append] in Hp. rewrite Hp.
    rewrite (IH _ Hu). now rewrite append_assoc.
Qed.

Lemma replace_go_skip (old new t s : string) :
  PyStr.replace_go old new (String.length t) (t ++ s)
  = PyStr.replace_go old new 0 s.
Proof.
  induction t as [|c t IH]; cbn [String.length append PyStr.replace_go];
    [reflexivity | exact IH].
Qed.

Lemma replace_go_whole (old new s : string) :
  old <> "" -> ~ PyStr.occurs old s -> PyStr.replace_go old new 0 s = s.
Proof.
  intros Hold. induction s as [|c s IH]; intros Hno; cbn [PyStr.replace_go].
  - reflexivity.
  - destruct (String.prefix old (String c s)) eqn:Hp.
    + exfalso. apply Hno. apply occurs_cons; auto.
    + rewrite IH; [reflexivity|].
      intros Hocc. apply Hno. apply occurs_cons; auto.
Qed.

(** A leading occurrence is replaced and the scan goes on after it. *)
Lemma replace_leading (old new s : string) :
  old <> "" ->
  PyStr.replace (old ++ s) old new = new ++ PyStr.replace s old new.
Proof.
  intros Hold. unfold PyStr.replace. destruct old as [|c old]; [congruence|].
  cbn [append PyStr.replace_go].
  replace (String.prefix (String c old) (String c (old ++ s))) with true
    by (symmetry; apply prefix_spec; now exists s).
  replace (String.length (String c old) - 1)%nat with (String.length old)
    by (cbn [String.length]; lia).
  now rewrite replace_go_skip.
Qed.

(** *** The separator "/" *)

Lemma occurs_char (c : ascii) (s : string) :
  PyStr.occurs (String c "") s <-> In c (list_ascii_of_string s).
Proof.
  induction s as [|d s IH].
  - split; [intros H; now apply occurs_empty in H | contradiction].
  - rewrite occurs_cons by discriminate. cbn [list_ascii_of_string In].
    rewrite IH. cbn. destruct (ascii_dec c d) as [->|Hne].
    + split; intros _; left; [reflexivity | now destruct s].
    + split; intros [H|H]; auto; congruence.
Qed.

Lemma prefix_char (c d : ascii) (s : string) :
  String.prefix (String c "") (String d s) = true <-> d = c.
Proof.
  cbn. destruct (ascii_dec c d) as [->|Hne].
  - destruct s; split; auto.
  - split; [discriminate | congruence].
Qed.

Lemma list_ascii_of_string_app (a b : string) :
  list_ascii_of_string (a ++ b)
  = (list_ascii_of_string a ++ list_ascii_of_string b)%list.
Proof. induction a as [|x a IH]; cbn; [reflexivity | now rewrite IH]. Qed.

(** No piece of [s.split(c)] has a [c] in it. *)
Lemma split_go_char_pieces (c : ascii) (cur s : string) :
  ~ PyStr.occurs (String c "") cur ->
  Forall (fun piece => ~ PyStr.occurs (String c "") piece)
         (PyStr.split_go (String c "") 0 cur s).
Proof.
  revert cur. induction s as [|d s IH]; intros cur Hcur; cbn [PyStr.split_go].
  - now constructor.
  - destruct (String.prefix (String c "") (String d s)) eqn:Hp.
    + constructor; [assumption|]. cbn [String.length Nat.sub]. apply IH.
      apply occurs_empty. discriminate.
    + apply IH. rewrite occurs_char in *. rewrite list_ascii_of_string_app.
      cbn. rewrite in_app_iff. intros [H|[H|[]]]; [auto|].
      subst d. assert (String.prefix (String c "") (String c s) = true)
        by now apply prefix_char.
      congruence.
Qed.

(** ["c".join(s.split("c")) == s] *)
Lemma concat_split_go_char (c : ascii) (cur s : string) :
  String.concat (String c "") (PyStr.split_go (String c "") 0 cur s) = cur ++ s.
Proof.
  revert cur. induction s as [|d s IH]; intros cur; cbn [PyStr.split_go].
  - cbn [String.concat]. now rewrite append_nil_r.
  - destruct (String.prefix (String c "") (String d s)) eqn:Hp.
    + apply prefix_char in Hp. subst d. cbn [String.length Nat.sub].
      specialize (IH "").
      destruct (PyStr.split_go (String c "") 0 "" s) as [|y l] eqn:E.
      * now apply split_go_nonempty in E.
      * cbn [String.concat]. cbn [String.concat] in IH. rewrite IH.
        reflexivity.
    + rewrite IH. now rewrite append_assoc.
Qed.

Lemma last_cons_nonempty {A} (x d : A) (l : list A) :
  l <> [] -> last (x :: l) d = last l d.
Proof. destruct l; [congruence | reflexivity]. Qed.

(** [(p + "c" + seg).split("c")[-1] == seg] when [seg] has no [c]. *)
Lemma last_split_go_char (c : ascii) (p seg cur : string) :
  ~ PyStr.occurs (String c "") seg ->
  last (PyStr.split_go (String c "") 0 cur (p ++ String c seg)) "" = seg.
Proof.
  intros Hseg. revert cur. induction p as [|d p IH]; intros cur;
    cbn [append PyStr.split_go].
  - replace (String.prefix (String c "") (String c seg)) with true
      by (symmetry; now apply prefix_char).
    cbn [String.length Nat.sub].
    rewrite last_cons_nonempty by apply split_go_nonempty.
    rewrite split_go_whole; [reflexivity | discriminate | assumption].
  - destruct (String.prefix (String c "") (String d (p ++ String c seg))).
    + cbn [String.length Nat.sub].
      rewrite last_cons_nonempty by apply split_go_nonempty. apply IH.
    + apply IH.
Qed.

(* ================================================================= *)
(** ** What [collected_data] holds after a traversal *)

Local Open Scope Z_scope.

Lemma stores_app (tr1 tr2 : list (event * Z)) :
  stores (tr1 ++ tr2) = (stores tr1 ++ stores tr2)%list.
Proof.
  induction tr1 as [|[[u|u|u] c] tr1 IH]; simpl; now rewrite ?IH.
Qed.

Lemma dict_keys_set_in {V} (k u : string) (v : V) (d : PyDict.t V) :
  In k (PyDict.keys (PyDict.set u v d)) <-> In k (PyDict.keys d) \/ k = u.
Proof.
  destruct (in_dec string_dec u (PyDict.keys d)) as [Hin|Hnew].
  - rewrite dict_keys_set_old by assumption. split; [auto|].
    intros [H| ->]; assumption.
  - rewrite dict_keys_set_new by assumption. rewrite in_app_iff. cbn.
    intuition congruence.
Qed.

Lemma dict_keys_set_nodup {V} (u : string) (v : V) (d : PyDict.t V) :
  NoDup (PyDict.keys d) -> NoDup (PyDict.keys (PyDict.set u v d)).
Proof.
  intros Hnd. destruct (in_dec string_dec u (PyDict.keys d)) as [Hin|Hnew].
  - now rewrite dict_keys_set_old.
  - rewrite dict_keys_set_new by assumption.
    apply NoDup_app; [assumption | repeat constructor; intros [] |].
    intros k Hk [<-|[]]. contradiction.
Qed.

Lemma settles_refl (a : SiteMapCollector) : settles a a.
Proof.
  exists []. rewrite app_nil_r. cbn.
  repeat split; auto; try tauto; try constructor.
Qed.

Lemma settles_trans (a b c : SiteMapCollector) :
  settles a b -> settles b c -> settles a c.
Proof.
  intros (tr1 & T1 & P1 & K1 & N1 & F1) (tr2 & T2 & P2 & K2 & N2 & F2).
  exists (tr1 ++ tr2)%list. rewrite gets_app, stores_app.
  split; [now rewrite T2, T1, app_assoc|].
  split; [now apply Permutation_app|].
  split; [|split].
  - intros k. rewrite K2, K1, in_app_iff. tauto.
  - auto.
  - intros k Hk. rewrite in_app_iff in Hk.
    rewrite F2, F1; tauto.
Qed.

Lemma settles_incr (a : SiteMapCollector) : settles a (incr_count a).
Proof.
  exists []. cbn. rewrite app_nil_r.
  repeat split; auto; try tauto; try constructor.
Qed.

Lemma settles_enter (u : string) (a : SiteMapCollector) :
  settles a (emit (Enter u) a).
Proof.
  exists [(Enter u, sitemap_count a)]. cbn.
  repeat split; auto; try tauto; try constructor.
Qed.

(** A visit that fetches: the request, complete visits of the children, the
    assignment. *)
Lemma settles_visit (u : string) (l : list string) (a a2 : SiteMapCollector) :
  settles (emit (Get u) (emit (Enter u) a)) a2 ->
  settles a (store u l a2).
Proof.
  intros (tr & T & P & K & N & F).
  exists ((Enter u, sitemap_count a) :: (Get u, sitemap_count a)
          :: tr ++ [(Store u, sitemap_count a2)])%list.
  cbn [store emit trace collected_data sitemap_count] in *.
  cbn [gets stores]. rewrite gets_app, stores_app. cbn [gets stores].
  rewrite app_nil_r.
  split; [rewrite T, <- !app_assoc; reflexivity|].
  split; [|split; [|split]].
  - rewrite <- Permutation_cons_append. now constructor.
  - intros k. rewrite dict_keys_set_in, K. cbn. intuition congruence.
  - intros Hnd. apply dict_keys_set_nodup. auto.
  - intros k Hk. cbn in Hk.
    rewrite dict_get_set_other by intuition congruence.
    apply F. tauto.
Qed.

Section Settled.
Context {net : requests.Net} {parser : bs4.Parser}.

Lemma for_links_settles
    (visit : string -> SiteMapCollector -> option SiteMapCollector) :
  (forall u a b, visit u a = Some b -> settles a b) ->
  forall links a b, for_links visit links a = Some b -> settles a b.
Proof.
  intros Hvisit links. induction links as [|link rest IH]; intros a b H.
  - injection H as <-. apply settles_refl.
  - cbn [for_links] in H.
    destruct (re.search_xml_end link && (sitemap_count a <? max_sitemaps a)).
    + destruct (visit link (incr_count a)) as [a'|] eqn:Hv; [|discriminate].
      apply Hvisit in Hv. apply IH in H.
      exact (settles_trans _ _ _ (settles_trans _ _ _ (settles_incr a) Hv) H).
    + now apply IH.
Qed.

Lemma parse_settles (fuel : nat) :
  forall u a b, parse fuel u a = Some b -> settles a b.
Proof.
  induction fuel as [|fuel IH]; intros u a b H; cbn [parse] in H;
    destruct (sitemap_count (emit (Enter u) a) >=? max_sitemaps (emit (Enter u) a));
    try discriminate;
    try (injection H as <-; apply settles_enter).
  pose proof (_request_content_state u (emit (Enter u) a)) as Hreq.
  destruct (_request_content u (emit (Enter u) a)) as [x a1].
  cbn [snd] in Hreq. subst a1.
  destruct (for_links (parse fuel) (_extract_links x) _) as [a2|] eqn:Hloop;
    [|discriminate].
  injection H as <-. apply settles_visit.
  exact (for_links_settles _ IH _ _ _ Hloop).
Qed.

Lemma for_lines_settles (lines : list string) :
  forall a o, for_lines lines a = Some o -> settles a (state_of o).
Proof.
  induction lines as [|line rest IH]; intros a o H; cbn [for_lines] in H.
  - injection H as <-. apply settles_refl.
  - destruct (PyStr.startswith line "Sitemap:"); [|now apply IH].
    destruct (nth_error (PyStr.split line ": ") 1);
      [|injection H as <-; apply settles_refl].
    destruct (sitemap_count a <? max_sitemaps a); [|now apply IH].
    destruct (_parse_sitemap (PyStr.strip s) (incr_count a)) as [b|] eqn:Hv;
      [|discriminate].
    apply parse_settles in Hv. apply IH in H.
    exact (settles_trans _ _ _ (settles_trans _ _ _ (settles_incr a) Hv) H).
Qed.

(** X4 -- the keys of [collected_data] are the addresses requested.  After
    a traversal (also one that ends in IndexError), an address is a key of
    [collected_data] exactly when it was requested as a sitemap, whether
    the request succeeded or not; an address that was only declared, or
    called without a request, is no key.  Each request is matched by one
    assignment of the entry of that address. *)
Theorem collected_keys_are_the_requested_addresses
    (base : string) (B : Z) (ua : option (list string)) :
  exists o sitemap_requests,
    __init__ base B ua = Some o
    /\ gets (trace (state_of o)) = (base ++ "/robots.txt") :: sitemap_requests
    /\ Permutation sitemap_requests (stores (trace (state_of o)))
    /\ forall k, In k (PyDict.keys (collected_data (state_of o)))
                 <-> In k sitemap_requests.
Proof.
  destruct (__init___summary base B ua) as (o & tr0 & Hrun & _).
  exists o. revert Hrun. unfold __init__, _search_sitemaps.
  set (a := {| base_site := base; collected_data := []; sitemap_count := 0;
               max_sitemaps := B; agents := _; trace := [] |}).
  change (base_site a) with base.
  pose proof (_request_content_state (base ++ "/robots.txt") a) as Hreq.
  destruct (_request_content (base ++ "/robots.txt") a) as [x a1].
  cbn [snd] in Hreq. subst a1. intros Hrun.
  destruct (for_lines_settles _ _ _ Hrun) as (tr & T & P & K & _ & _).
  exists (gets tr). rewrite T. subst a. cbn [emit trace app gets stores].
  split; [exact Hrun|].
  split; [reflexivity|]. split; [exact P|]. intros k. split.
  - intros H. apply K in H. cbn in H. tauto.
  - intros H. apply K. now right.
Qed.

(** X5 -- one entry per address, fewer entries than the budget.  The keys
    of [collected_data] after a traversal are pairwise different, however
    often an address was visited, and there are at most [B - 1] of them
    (none when [B <= 1]). *)
Theorem collected_data_size
    (base : string) (B : Z) (ua : option (list string)) :
  exists o,
    __init__ base B ua = Some o
    /\ NoDup (PyDict.keys (collected_data (state_of o)))
    /\ Z.of_nat (List.length (collected_data (state_of o))) <= Z.max 0 (B - 1).
Proof.
  destruct (__init___summary base B ua)
    as (o & tr0 & Hrun & _ & _ & Htr0 & _ & _ & Hgets).
  exists o. split; [exact Hrun|]. revert Hrun.
  unfold __init__, _search_sitemaps.
  set (a := {| base_site := base; collected_data := []; sitemap_count := 0;
               max_sitemaps := B; agents := _; trace := [] |}).
  change (base_site a) with base.
  pose proof (_request_content_state (base ++ "/robots.txt") a) as Hreq.
  destruct (_request_content (base ++ "/robots.txt") a) as [x a1].
  cbn [snd] in Hreq. subst a1. intros Hrun.
  apply for_lines_settles in Hrun. destruct Hrun as (tr & T & _ & K & N & _).
  subst a. cbn [emit trace collected_data app] in *.
  rewrite Htr0 in T. injection T as <-.
  assert (Hnd : NoDup (PyDict.keys (collected_data (state_of o))))
    by (apply N; constructor).
  split; [exact Hnd|].
  assert (Hle : (List.length (PyDict.keys (collected_data (state_of o)))
                 <= List.length (gets tr0))%nat).
  { apply NoDup_incl_length; [exact Hnd|].
    intros k Hk. apply K in Hk. cbn in Hk. tauto. }
  unfold PyDict.keys in Hle. rewrite length_map in Hle. lia.
Qed.

(** X6 -- a visit leaves the other entries alone.  [_parse_sitemap]
    returns; it removes no key and moves none ([collected_data] keeps its
    keys in place and adds new ones after them); and the entry of every
    address that was not requested during the visit is what it was
    before. *)
Theorem visit_keeps_other_entries (u : string) (a : SiteMapCollector) :
  exists b tr ks,
    _parse_sitemap u a = Some b
    /\ trace b = (trace a ++ tr)%list
    /\ PyDict.keys (collected_data b)
       = (PyDict.keys (collected_data a) ++ ks)%list
    /\ forall k, ~ In k (gets tr) ->
                 PyDict.get k (collected_data b) = PyDict.get k (collected_data a).
Proof.
  destruct (_parse_sitemap_total u a) as [b Hrun].
  pose proof (_parse_sitemap_advances _ _ _ Hrun)
    as [_ _ _ _ _ _ _ _ [ks Hks]].
  destruct (parse_settles _ _ _ _ Hrun) as (tr & T & _ & _ & _ & F).
  now exists b, tr, ks.
Qed.

End Settled.

(* ================================================================= *)
(** ** The lines of robots.txt *)

Section Robots.
Context {net : requests.Net} {parser : bs4.Parser}.

Lemma _request_content_body (url : string) (a : SiteMapCollector) :
  fst (_request_content url a)
  = response_body (List.length (gets (trace a))) url.
Proof.
  unfold _request_content, response_body.
  destruct (requests.get _ url) as [r|]; [destruct (requests.raise_for_status r)|];
    reflexivity.
Qed.

Lemma for_lines_raises_iff (lines : list string) :
  forall a o,
    for_lines lines a = Some o ->
    (exists self, o = Raised IndexError self)
    <-> Exists (fun line => PyStr.startswith line "Sitemap:" = true
                            /\ nth_error (PyStr.split line ": ") 1 = None)
               lines.
Proof.
  induction lines as [|line rest IH]; intros a o H; cbn [for_lines] in H.
  - injection H as <-. split; [intros [s Hs]; discriminate | intros HE; inversion HE].
  - rewrite Exists_cons.
    destruct (PyStr.startswith line "Sitemap:") eqn:Hstart.
    + destruct (nth_error (PyStr.split line ": ") 1) as [field|] eqn:Hfield.
      * assert (Hrest : exists a', for_lines rest a' = Some o).
        { destruct (sitemap_count a <? max_sitemaps a); [|eauto].
          destruct (_parse_sitemap (PyStr.strip field) (incr_count a));
            [eauto | discriminate]. }
        destruct Hrest as [a' Hrest]. rewrite (IH _ _ Hrest).
        split; [auto | intros [[_ Hnone]|HE]; [discriminate | exact HE]].
      * injection H as <-. split; [auto | eauto].
    + rewrite (IH _ _ H).
      split; [auto | intros [[Hs _]|HE]; [discriminate | exact HE]].
Qed.

(** X1 -- when the constructor raises.  [SiteMapCollector(base_site, B)]
    ends in IndexError exactly when the robots.txt it received has a line
    that starts with "Sitemap:" and has no ": " in it; otherwise it returns
    normally.  The budget plays no part: the line is split before the
    counter is looked at. *)
Theorem index_error_iff_malformed_line
    (base : string) (B : Z) (ua : option (list string)) :
  exists o,
    __init__ base B ua = Some o
    /\ ((exists self, o = Raised IndexError self)
        <-> Exists (fun line => PyStr.startswith line "Sitemap:" = true
                                /\ ~ PyStr.occurs ": " line)
                   (PyStr.splitlines (response_body 0 (base ++ "/robots.txt"))))
    /\ ((exists self, o = Normal self)
        <-> Forall (fun line => PyStr.startswith line "Sitemap:" = true ->
                                PyStr.occurs ": " line)
                   (PyStr.splitlines (response_body 0 (base ++ "/robots.txt")))).
Proof.
  destruct (__init___summary base B ua) as (o & tr0 & Hrun & _).
  exists o. split; [exact Hrun|]. revert Hrun.
  unfold __init__, _search_sitemaps.
  set (a := {| base_site := base; collected_data := []; sitemap_count := 0;
               max_sitemaps := B; agents := _; trace := [] |}).
  change (base_site a) with base.
  pose proof (_request_content_body (base ++ "/robots.txt") a) as Hbody.
  destruct (_request_content (base ++ "/robots.txt") a) as [x a1].
  cbn [fst] in Hbody. change (List.length (gets (trace a))) with 0%nat in Hbody.
  subst x. intros Hrun. apply for_lines_raises_iff in Hrun.
  assert (Hbad : forall line,
             (PyStr.startswith line "Sitemap:" = true
              /\ nth_error (PyStr.split line ": ") 1 = None)
             <-> (PyStr.startswith line "Sitemap:" = true
                  /\ ~ PyStr.occurs ": " line)).
  { intros line. rewrite split_second_none by discriminate. tauto. }
  split.
  - rewrite Hrun. rewrite !Exists_exists.
    split; intros (line & Hin & Hline); exists line; split; auto;
      now apply Hbad.
  - rewrite Forall_forall. split.
    + intros [self ->] line Hin Hstart.
      apply split_second_some; [discriminate|]. intros Hnone.
      assert (HE : exists s, Normal self = Raised IndexError s).
      { apply Hrun. apply Exists_exists. eauto. }
      destruct HE as [s HE]. discriminate.
    + intros Hall. destruct o as [self|[] self]; [eauto|].
      assert (HE : exists s, Raised IndexError self = Raised IndexError s)
        by eauto.
      apply Hrun in HE. apply Exists_exists in HE as (line & Hin & Hs & Hnone).
      apply split_second_none in Hnone; [|discriminate].
      contradiction (Hnone (Hall line Hin Hs)).
Qed.

Lemma for_lines_full (lines : list string) (a : SiteMapCollector) (o : outcome) :
  max_sitemaps a <= sitemap_count a ->
  for_lines lines a = Some o -> state_of o = a.
Proof.
  intros Hfull. induction lines as [|line rest IH]; cbn [for_lines]; intros H.
  - now injection H as <-.
  - destruct (PyStr.startswith line "Sitemap:"); [|auto].
    destruct (nth_error (PyStr.split line ": ") 1);
      [|now injection H as <-].
    destruct (Z.ltb_spec (sitemap_count a) (max_sitemaps a)); [lia|auto].
Qed.

(** X3 -- a budget of zero or less.  With [max_sitemaps <= 0] the
    constructor requests robots.txt and nothing else: [_parse_sitemap] is
    never called, the counter stays at 0 and [collected_data] stays
    empty. *)
Theorem nonpositive_budget_visits_nothing
    (base : string) (B : Z) (ua : option (list string)) :
  B <= 0 ->
  exists o,
    __init__ base B ua = Some o
    /\ trace (state_of o) = [(Get (base ++ "/robots.txt"), 0)]
    /\ collected_data (state_of o) = []
    /\ sitemap_count (state_of o) = 0.
Proof.
  intros HB. destruct (__init___summary base B ua) as (o & tr0 & Hrun & _).
  exists o. split; [exact Hrun|]. revert Hrun.
  unfold __init__, _search_sitemaps.
  set (a := {| base_site := base; collected_data := []; sitemap_count := 0;
               max_sitemaps := B; agents := _; trace := [] |}).
  change (base_site a) with base.
  pose proof (_request_content_state (base ++ "/robots.txt") a) as Hreq.
  destruct (_request_content (base ++ "/robots.txt") a) as [x a1].
  cbn [snd] in Hreq. subst a1. intros Hrun.
  apply for_lines_full in Hrun; [|cbn; lia].
  rewrite Hrun. repeat split.
Qed.

(** The field [line.split(": ")[1]] of a line "Sitemap: u" and of a line
    "Sitemap: u: v". *)
Lemma sitemap_line_field (u v : string) :
  ~ PyStr.occurs ": " u ->
  nth_error (PyStr.split ("Sitemap: " ++ u) ": ") 1 = Some u
  /\ nth_error (PyStr.split ("Sitemap: " ++ u ++ ": " ++ v) ": ") 1 = Some u.
Proof.
  intros Hno.
  assert (Hsitemap : ~ PyStr.occurs ": " "Sitemap")
    by (apply split_second_none; [discriminate | reflexivity]).
  unfold PyStr.split.
  change ("Sitemap: " ++ u) with ("Sitemap" ++ ": " ++ u).
  change ("Sitemap: " ++ u ++ ": " ++ v)
    with ("Sitemap" ++ ": " ++ u ++ ": " ++ v).
  rewrite !(split_go_colon_space_first "Sitemap") by assumption.
  rewrite split_go_colon_space_first by assumption.
  rewrite split_go_whole by (discriminate || assumption).
  split; reflexivity.
Qed.

(** X2 -- the entry point of a line.  For a line "Sitemap: " followed by a
    text [u] without ": ", the loop of [_search_sitemaps] visits [u]
    stripped of the white space at its ends, if the counter is below the
    maximum, and goes on to the next line.  When [u] is followed by ": "
    and more text, the address visited is still [u]: what comes after the
    second ": " is dropped. *)
Theorem sitemap_line_entry_point
    (u v : string) (rest : list string) (a : SiteMapCollector) :
  ~ PyStr.occurs ": " u ->
  forall line,
    line = "Sitemap: " ++ u \/ line = "Sitemap: " ++ u ++ ": " ++ v ->
    for_lines (line :: rest) a
    = if sitemap_count a <? max_sitemaps a
      then match _parse_sitemap (PyStr.strip u) (incr_count a) with
           | Some a' => for_lines rest a'
           | None => None
           end
      else for_lines rest a.
Proof.
  intros Hno line Hline. destruct (sitemap_line_field u v Hno) as [H1 H2].
  cbn [for_lines].
  destruct Hline as [-> | ->].
  - change (PyStr.startswith ("Sitemap: " ++ u) "Sitemap:") with true.
    cbv iota. now rewrite H1.
  - change (PyStr.startswith ("Sitemap: " ++ u ++ ": " ++ v) "Sitemap:")
      with true.
    cbv iota. now rewrite H2.
Qed.

(** A visit at the maximum, and a visit of a document without sitemap
    links. *)
Lemma visit_at_max (u : string) (a : SiteMapCollector) :
  max_sitemaps a <= sitemap_count a ->
  _parse_sitemap u a = Some (emit (Enter u) a).
Proof.
  intros Hfull. rewrite _parse_sitemap_eq. cbv zeta.
  destruct (Z.geb_spec (sitemap_count (emit (Enter u) a))
                       (max_sitemaps (emit (Enter u) a))) as [_|Hlt];
    [reflexivity | cbn in Hlt; lia].
Qed.

Lemma visit_of_leaf (u : string) (a : SiteMapCollector) :
  sitemap_count a < max_sitemaps a ->
  Forall (fun l => re.search_xml_end l = false)
         (_extract_links (response_body (List.length (gets (trace a))) u)) ->
  _parse_sitemap u a
  = Some (store u (_extract_links (response_body (List.length (gets (trace a))) u))
                (emit (Get u) (emit (Enter u) a))).
Proof.
  intros Hlt Hleaf.
  destruct (visit_below_max u a Hlt) as (a2 & Hloop & Hrun & _).
  cbv zeta in *. rewrite _request_content_body, gets_emit_enter in *.
  rewrite for_links_nothing_to_do in Hloop by now right.
  injection Hloop as <-. exact Hrun.
Qed.

Lemma for_lines_flat (lines : list string) :
  (forall n url, Forall (fun l => re.search_xml_end l = false)
                        (_extract_links (response_body n url))) ->
  Forall (fun line => PyStr.startswith line "Sitemap:" = true ->
                      PyStr.occurs ": " line) lines ->
  forall a,
    exists b,
      for_lines lines a = Some (Normal b)
      /\ enters (trace b)
         = (enters (trace a)
            ++ firstn (Z.to_nat (max_sitemaps a - sitemap_count a))
                      (entry_points lines))%list
      /\ gets (trace b)
         = (gets (trace a)
            ++ firstn (Z.to_nat (max_sitemaps a - 1 - sitemap_count a))
                      (entry_points lines))%list.
Proof.
  intros Hflat. induction lines as [|line rest IH]; intros Hlines a.
  - exists a. cbn. rewrite !firstn_nil, !app_nil_r. auto.
  - inversion Hlines as [|? ? Hline Hrest]; subst.
    specialize (IH Hrest). cbn [for_lines entry_points flat_map].
    fold (entry_points rest).
    destruct (PyStr.startswith line "Sitemap:") eqn:Hstart;
      [|cbn [app]; apply IH].
    destruct (nth_error (PyStr.split line ": ") 1) as [field|] eqn:Hfield.
    2:{ exfalso. apply split_second_none in Hfield; [|discriminate]. auto. }
    cbn [app].
    destruct (Z.ltb_spec (sitemap_count a) (max_sitemaps a)) as [Hlt|Hge].
    + destruct (Z.lt_ge_cases (sitemap_count a + 1) (max_sitemaps a))
        as [Hroom|Hlast].
      * rewrite visit_of_leaf by (cbn; auto).
        match goal with
        | |- context [for_lines rest ?s] =>
            destruct (IH s) as (b & Hrun & Hent & Hget)
        end.
        exists b. split; [exact Hrun|].
        rewrite Hent, Hget.
        cbn [store emit incr_count trace sitemap_count max_sitemaps].
        rewrite !enters_app, !gets_app. cbn [enters gets].
        rewrite !app_nil_r, <- !app_assoc. cbn [app].
        replace (Z.to_nat (max_sitemaps a - sitemap_count a))
          with (S (Z.to_nat (max_sitemaps a - (sitemap_count a + 1)))) by lia.
        replace (Z.to_nat (max_sitemaps a - 1 - sitemap_count a))
          with (S (Z.to_nat (max_sitemaps a - 1 - (sitemap_count a + 1))))
          by lia.
        split; reflexivity.
      * rewrite visit_at_max by (cbn; lia).
        destruct (IH (emit (Enter (PyStr.strip field)) (incr_count a)))
          as (b & Hrun & Hent & Hget).
        exists b. split; [exact Hrun|].
        rewrite Hent, Hget.
        cbn [emit incr_count trace sitemap_count max_sitemaps].
        rewrite !enters_app, !gets_app. cbn [enters gets].
        rewrite !app_nil_r, <- !app_assoc. cbn [app].
        replace (Z.to_nat (max_sitemaps a - sitemap_count a)) with 1%nat by lia.
        replace (Z.to_nat (max_sitemaps a - (sitemap_count a + 1)))
          with 0%nat by lia.
        replace (Z.to_nat (max_sitemaps a - 1 - sitemap_count a))
          with 0%nat by lia.
        replace (Z.to_nat (max_sitemaps a - 1 - (sitemap_count a + 1)))
          with 0%nat by lia.
        cbn [firstn]. rewrite app_nil_r. split; reflexivity.
    + destruct (IH a) as (b & Hrun & Hent & Hget).
      exists b. split; [exact Hrun|]. rewrite Hent, Hget.
      replace (Z.to_nat (max_sitemaps a - sitemap_count a)) with 0%nat by lia.
      replace (Z.to_nat (max_sitemaps a - 1 - sitemap_count a))
        with 0%nat by lia.
      split; reflexivity.
Qed.

(** X7 -- a site whose sitemaps list pages only.  When no document the site
    serves declares a link that matches [\.xml$] and every "Sitemap:" line
    of robots.txt has its ": ", the constructor returns normally;
    [_parse_sitemap] is called on the entry points of robots.txt in file
    order, repetitions included, on the first [B] of them; the first
    [B - 1] of these are requested, after robots.txt. *)
Theorem flat_site_entry_points_in_file_order
    (base : string) (B : Z) (ua : option (list string)) :
  (forall n url, Forall (fun l => re.search_xml_end l = false)
                        (_extract_links (response_body n url))) ->
  Forall (fun line => PyStr.startswith line "Sitemap:" = true ->
                      PyStr.occurs ": " line)
         (PyStr.splitlines (response_body 0 (base ++ "/robots.txt"))) ->
  exists self,
    __init__ base B ua = Some (Normal self)
    /\ enters (trace self)
       = firstn (Z.to_nat B)
           (entry_points
              (PyStr.splitlines (response_body 0 (base ++ "/robots.txt"))))
    /\ gets (trace self)
       = (base ++ "/robots.txt")
         :: firstn (Z.to_nat (B - 1))
              (entry_points
                 (PyStr.splitlines (response_body 0 (base ++ "/robots.txt")))).
Proof.
  intros Hflat Hlines. unfold __init__, _search_sitemaps.
  set (a := {| base_site := base; collected_data := []; sitemap_count := 0;
               max_sitemaps := B; agents := _; trace := [] |}).
  change (base_site a) with base.
  pose proof (_request_content_body (base ++ "/robots.txt") a) as Hbody.
  pose proof (_request_content_state (base ++ "/robots.txt") a) as Hreq.
  destruct (_request_content (base ++ "/robots.txt") a) as [x a1].
  cbn [fst snd] in *. change (List.length (gets (trace a))) with 0%nat in Hbody.
  subst x a1.
  destruct (for_lines_flat _ Hflat Hlines (emit (Get (base ++ "/robots.txt")) a))
    as (b & Hrun & Hent & Hget).
  exists b. split; [exact Hrun|]. rewrite Hent, Hget. subst a.
  cbn [emit trace sitemap_count max_sitemaps app enters gets].
  rewrite !Z.sub_0_r. split; reflexivity.
Qed.

End Robots.

(* ================================================================= *)
(** ** [filter_urls] and [save_csv] *)

Local Open Scope string_scope.

Lemma dict_get_map {V W} (f : V -> W) (k : string) (d : PyDict.t V) :
  PyDict.get k (map (fun entry => (fst entry, f (snd entry))) d)
  = option_map f (PyDict.get k d).
Proof.
  induction d as [|[k' v] d IH]; cbn; [reflexivity|].
  destruct (String.eqb k k'); [reflexivity | exact IH].
Qed.

(** The pieces of [x.split("/")]: there is one at least, none has a "/",
    and joined by "/" they give [x] again. *)
Lemma split_slash (x : string) :
  PyStr.split x "/" <> []
  /\ Forall (fun seg => ~ PyStr.occurs "/" seg) (PyStr.split x "/")
  /\ String.concat "/" (PyStr.split x "/") = x.
Proof.
  unfold PyStr.split. split; [apply split_go_nonempty|]. split.
  - apply split_go_char_pieces. apply occurs_empty. discriminate.
  - apply concat_split_go_char.
Qed.

(** X8 -- what [filter_urls] adds.  The frames keep their keys, their order
    and their "URLs" column.  In each row the new "Subdirectories" value is
    a list with at least one element, none of which has a "/" in it, and
    joining them by "/" gives the URL of the row with every occurrence of
    [base_site + "/"] taken out. *)
Theorem filter_urls_rows (self : SiteMapCollector) :
  PyDict.keys (filter_urls self) = PyDict.keys (collected_data self)
  /\ forall k urls,
       PyDict.get k (collected_data self) = Some urls ->
       exists rows,
         PyDict.get k (filter_urls self) = Some rows
         /\ map fst rows = urls
         /\ Forall (fun row =>
                      snd row <> []
                      /\ Forall (fun seg => ~ PyStr.occurs "/" seg) (snd row)
                      /\ String.concat "/" (snd row)
                         = PyStr.replace (fst row) (base_site self ++ "/") "")
                   rows.
Proof.
  unfold filter_urls. split.
  - unfold PyDict.keys. rewrite map_map. reflexivity.
  - intros k urls Hk.
    rewrite (dict_get_map
               (map (fun x => (x, subdirectories (base_site self) x)))), Hk.
    eexists. split; [reflexivity|]. split.
    + rewrite map_map. cbn [fst]. apply map_id.
    + apply Forall_map. apply Forall_forall. intros x _. cbn [fst snd].
      apply split_slash.
Qed.

(** X9 -- the segments of a URL of the site.  When [base_site + "/"] does
    not occur in [path], the "Subdirectories" of the URL
    [base_site + "/" + path] are the pieces of [path] between its "/", and
    a URL that is [path] alone, without the prefix, gets the same list. *)
Theorem subdirectories_under_base (base path : string) :
  ~ PyStr.occurs (base ++ "/") path ->
  subdirectories base (base ++ "/" ++ path) = PyStr.split path "/"
  /\ subdirectories base path = PyStr.split path "/".
Proof.
  intros Hno. assert (Hold : base ++ "/" <> "") by (destruct base; discriminate).
  unfold subdirectories. rewrite <- append_assoc, replace_leading by assumption.
  unfold PyStr.replace. rewrite replace_go_whole by assumption.
  split; reflexivity.
Qed.

Lemma concat_last (sep : string) (l : list string) :
  l <> [] ->
  String.concat sep l = last l ""
  \/ exists p, String.concat sep l = p ++ sep ++ last l "".
Proof.
  induction l as [|x [|y l] IH]; intros Hl.
  - congruence.
  - now left.
  - right. destruct IH as [IH|[p IH]]; [discriminate| |].
    + exists x. cbn [String.concat last] in *. now rewrite IH.
    + exists (x ++ sep ++ p). cbn [String.concat last] in *.
      now rewrite IH, !append_assoc.
Qed.

Lemma last_in {A} (l : list A) (d : A) : l <> [] -> In (last l d) l.
Proof.
  intros Hl. rewrite (app_removelast_last d Hl) at 2.
  apply in_or_app. right. now left.
Qed.

(** The name of the file of an address: the folder, "/", a segment without
    "/" and ".csv", where the segment is the whole address or what follows
    its last "/". *)
Lemma csv_name_shape (folder key : string) :
  exists seg,
    csv_name folder key = folder ++ "/" ++ seg ++ ".csv"
    /\ ~ PyStr.occurs "/" seg
    /\ (key = seg \/ exists p, key = p ++ "/" ++ seg).
Proof.
  destruct (split_slash key) as (Hne & Hpieces & Hjoin).
  exists (last (PyStr.split key "/") "").
  split; [reflexivity|]. split.
  - rewrite Forall_forall in Hpieces. apply Hpieces. now apply last_in.
  - destruct (concat_last "/" _ Hne) as [H|[p H]]; rewrite Hjoin in H;
      [left | right; exists p]; exact H.
Qed.

(** X10 -- what [save_csv] writes, and where.  The calls of [save_csv] are:
    first [os.makedirs(folder)], exactly when the folder does not exist;
    then one [to_csv] call for every entry of the mapping, in the order of
    the mapping, with the frame of that entry.  Every file lies directly in
    the folder: its name is the folder, "/", a segment without "/" and
    ".csv", where the segment is the whole address or what follows the last
    "/" of the address.  Nothing else is called. *)
Theorem save_csv_file_names {F : Type} (folder : string) (folder_exists : bool)
    (data : PyDict.t F) :
  (exists writes,
      save_csv folder folder_exists data
      = ((if folder_exists then [] else [Makedirs folder]) ++ writes)%list
      /\ Forall2
           (fun entry call =>
              call = ToCsv (csv_name folder (fst entry)) (snd entry)
              /\ exists seg,
                   csv_name folder (fst entry) = folder ++ "/" ++ seg ++ ".csv"
                   /\ ~ PyStr.occurs "/" seg
                   /\ (fst entry = seg \/ exists p, fst entry = p ++ "/" ++ seg))
           data writes)
  /\ Forall (fun call =>
               match call with
               | Makedirs f => f = folder /\ folder_exists = false
               | ToCsv file_name df =>
                   exists key seg,
                     In (key, df) data
                     /\ file_name = folder ++ "/" ++ seg ++ ".csv"
                     /\ ~ PyStr.occurs "/" seg
                     /\ (key = seg \/ exists p, key = p ++ "/" ++ seg)
               end)
            (save_csv folder folder_exists data).
Proof.
  split.
  - unfold save_csv. eexists. split; [reflexivity|].
    induction data as [|[key df] data IH]; cbn [map fst snd]; constructor.
    + split; [reflexivity | apply csv_name_shape].
    + exact IH.
  - unfold save_csv. apply Forall_app. split.
    + destruct folder_exists; repeat constructor.
    + apply Forall_map. apply Forall_forall. intros [key df] Hin. cbn [fst snd].
      destruct (csv_name_shape folder key) as (seg & Hname & Hseg & Hkey).
      exists key, seg. auto.
Qed.

(** X11 -- addresses with the same last segment share a file.  The name of
    the file depends only on what follows the last "/" of the address: two
    sitemaps [p1 + "/" + seg] and [p2 + "/" + seg] are written to the same
    file, [folder + "/" + seg + ".csv"]. *)
Theorem save_csv_same_last_segment (folder p1 p2 seg : string) :
  ~ PyStr.occurs "/" seg ->
  csv_name folder (p1 ++ "/" ++ seg) = folder ++ "/" ++ seg ++ ".csv"
  /\ csv_name folder (p2 ++ "/" ++ seg) = csv_name folder (p1 ++ "/" ++ seg).
Proof.
  intros Hseg. unfold csv_name, PyStr.split.
  change ("/" ++ seg) with (String "/" seg).
  now rewrite !last_split_go_char.
Qed.

(* ================================================================= *)
(** ** The values of [collected_data] *)

Local Open Scope Z_scope.

Section Values.
Context {net : requests.Net} {parser : bs4.Parser}.

Lemma documented_later (a b : SiteMapCollector) :
  collected_data b = collected_data a ->
  (exists tr, trace b = (trace a ++ tr)%list) ->
  documented a -> documented b.
Proof.
  intros Hdata [tr Htr] Ha k v Hk. rewrite Hdata in Hk.
  destruct (Ha k v Hk) as (n & Hn & Hv). exists n. split; [|exact Hv].
  rewrite Htr, gets_app. rewrite nth_error_app1; [exact Hn|].
  apply nth_error_Some. congruence.
Qed.

Lemma documented_store (u : string) (a a2 : SiteMapCollector) :
  (exists tr, trace a2 = (trace (emit (Get u) (emit (Enter u) a)) ++ tr)%list) ->
  documented a2 ->
  documented
    (store u (_extract_links (response_body (List.length (gets (trace a))) u)) a2).
Proof.
  intros [tr Htr] Ha2 k v Hk.
  cbn [store emit collected_data trace sitemap_count] in *.
  rewrite gets_app. cbn [gets]. rewrite app_nil_r.
  destruct (string_dec k u) as [->|Hne].
  - rewrite dict_get_set_same in Hk. injection Hk as <-.
    exists (List.length (gets (trace a))). split; [|reflexivity].
    rewrite Htr, !gets_app. cbn [gets]. rewrite app_nil_r, <- app_assoc.
    rewrite nth_error_app2 by lia. now rewrite Nat.sub_diag.
  - rewrite dict_get_set_other in Hk by assumption. now apply Ha2.
Qed.

Lemma for_links_documented
    (visit : string -> SiteMapCollector -> option SiteMapCollector) :
  (forall u a b, visit u a = Some b -> documented a -> documented b) ->
  forall links a b,
    for_links visit links a = Some b -> documented a -> documented b.
Proof.
  intros Hvisit links. induction links as [|link rest IH]; intros a b H Ha.
  - now injection H as <-.
  - cbn [for_links] in H.
    destruct (re.search_xml_end link && (sitemap_count a <? max_sitemaps a)).
    + destruct (visit link (incr_count a)) as [a'|] eqn:Hv; [|discriminate].
      apply (IH _ _ H). apply (Hvisit _ _ _ Hv).
      apply (documented_later a); [reflexivity | | exact Ha].
      exists []. cbn. now rewrite app_nil_r.
    + now apply (IH _ _ H).
Qed.

Lemma parse_documented (fuel : nat) :
  forall u a b, parse fuel u a = Some b -> documented a -> documented b.
Proof.
  induction fuel as [|fuel IH]; intros u a b H Ha; cbn [parse] in H;
    destruct (sitemap_count (emit (Enter u) a) >=? max_sitemaps (emit (Enter u) a));
    try discriminate;
    try (injection H as <-; apply (documented_later a);
         [reflexivity | now eexists | exact Ha]).
  pose proof (_request_content_state u (emit (Enter u) a)) as Hreq.
  pose proof (_request_content_body u (emit (Enter u) a)) as Hbody.
  destruct (_request_content u (emit (Enter u) a)) as [x a1].
  cbn [fst snd] in *. subst a1 x. rewrite gets_emit_enter in H.
  destruct (for_links (parse fuel) _ _) as [a2|] eqn:Hloop; [|discriminate].
  injection H as <-.
  pose proof (for_links_advances _ (parse_advances fuel) _ _ _ Hloop)
    as [_ _ _ _ _ _ _ [tr [Htr _]] _].
  apply documented_store; [now exists tr|].
  apply (for_links_documented _ IH _ _ _ Hloop).
  apply (documented_later a); [reflexivity | | exact Ha].
  eexists. cbn [emit trace]. rewrite <- app_assoc. reflexivity.
Qed.

Lemma for_lines_documented (lines : list string) :
  forall a o,
    for_lines lines a = Some o -> documented a -> documented (state_of o).
Proof.
  induction lines as [|line rest IH]; intros a o H Ha; cbn [for_lines] in H.
  - now injection H as <-.
  - destruct (PyStr.startswith line "Sitemap:"); [|now apply (IH _ _ H)].
    destruct (nth_error (PyStr.split line ": ") 1);
      [|now injection H as <-].
    destruct (sitemap_count a <? max_sitemaps a); [|now apply (IH _ _ H)].
    destruct (_parse_sitemap (PyStr.strip s) (incr_count a)) as [b|] eqn:Hv;
      [|discriminate].
    apply (IH _ _ H). apply (parse_documented _ _ _ _ Hv).
    apply (documented_later a); [reflexivity | | exact Ha].
    exists []. cbn. now rewrite app_nil_r.
Qed.

(** X12 -- every entry is what a response declared.  After a traversal,
    each entry of [collected_data] holds the links extracted from the body
    obtained by one of the requests made for its address (the empty body
    when that request failed): nothing is recorded that the site did not
    answer for that address. *)
Theorem collected_values_are_declared_links
    (base : string) (B : Z) (ua : option (list string)) :
  exists o,
    __init__ base B ua = Some o
    /\ forall k v,
         PyDict.get k (collected_data (state_of o)) = Some v ->
         exists n,
           nth_error (gets (trace (state_of o))) n = Some k
           /\ v = _extract_links (response_body n k).
Proof.
  destruct (__init___summary base B ua) as (o & tr0 & Hrun & _).
  exists o. split; [exact Hrun|]. revert Hrun.
  unfold __init__, _search_sitemaps.
  set (a := {| base_site := base; collected_data := []; sitemap_count := 0;
               max_sitemaps := B; agents := _; trace := [] |}).
  change (base_site a) with base.
  pose proof (_request_content_state (base ++ "/robots.txt") a) as Hreq.
  destruct (_request_content (base ++ "/robots.txt") a) as [x a1].
  cbn [snd] in Hreq. subst a1. intros Hrun.
  apply (for_lines_documented _ _ _ Hrun).
  intros k v Hk. discriminate Hk.
Qed.

End Values.

(* ================================================================= *)
(** ** These theorems at work on the small sites *)

Lemma no_colon_space_in_a_xml : ~ PyStr.occurs ": " "http://x/a.xml".
Proof. apply split_second_none; [discriminate | reflexivity]. Qed.

Lemma sitemap_line_entry_point_on_truncated_line :
  @for_lines (Site.serve Site.nested) Site.flat_xml
    ["Sitemap: http://x/a.xml: old"] (Site.first_visit 5)
  = match @_parse_sitemap (Site.serve Site.nested) Site.flat_xml
            "http://x/a.xml" (incr_count (Site.first_visit 5)) with
    | Some a' => Some (Normal a')
    | None => None
    end.
Proof.
  exact (@sitemap_line_entry_point (Site.serve Site.nested) Site.flat_xml
           "http://x/a.xml" "old" [] (Site.first_visit 5)
           no_colon_space_in_a_xml
           "Sitemap: http://x/a.xml: old" (or_intror eq_refl)).
Defined.

Lemma nonpositive_budget_on_nested_site :
  (0 <= 0)%Z
  /\ exists o,
       Site.crawl Site.nested 0 = Some o
       /\ trace (state_of o) = [(Get "http://x/robots.txt", 0%Z)]
       /\ collected_data (state_of o) = []
       /\ sitemap_count (state_of o) = 0%Z.
Proof.
  split; [lia|].
  apply (@nonpositive_budget_visits_nothing (Site.serve Site.nested)
           Site.flat_xml "http://x" 0 None).
  lia.
Defined.

Lemma twice_serves_no_sitemap_link (n : nat) (url : string) :
  Forall (fun l => re.search_xml_end l = false)
         (@_extract_links Site.flat_xml
            (@response_body (Site.serve Site.twice) n url)).
Proof.
  unfold response_body. cbn [requests.get Site.serve].
  unfold Site.twice. cbn [PyDict.get].
  destruct (String.eqb url "http://x/robots.txt");
    [vm_compute; repeat constructor|].
  destruct (String.eqb url "http://x/pages.xml");
    vm_compute; repeat constructor.
Qed.

Lemma flat_site_on_repeated_entry_point :
  exists self,
    Site.crawl Site.twice 3 = Some (Normal self)
    /\ enters (trace self) = ["http://x/pages.xml"; "http://x/pages.xml"]
    /\ gets (trace self)
       = ["http://x/robots.txt"; "http://x/pages.xml"; "http://x/pages.xml"].
Proof.
  destruct (@flat_site_entry_points_in_file_order
              (Site.serve Site.twice) Site.flat_xml "http://x" 3 None)
    as (self & Hrun & Hent & Hget).
  - exact twice_serves_no_sitemap_link.
  - vm_compute. repeat constructor; intros _;
      exists "Sitemap", "http://x/pages.xml"; reflexivity.
  - exists self. split; [exact Hrun|]. rewrite Hent, Hget.
    split; reflexivity.
Defined.

Lemma subdirectories_of_a_b_xml :
  subdirectories "http://x" "http://x/a/b.xml" = ["a"; "b.xml"]
  /\ subdirectories "http://x" "a/b.xml" = ["a"; "b.xml"].
Proof.
  apply (subdirectories_under_base "http://x" "a/b.xml").
  apply split_second_none; [discriminate | reflexivity].
Defined.

Lemma save_csv_same_last_segment_en_fr :
  csv_name "sitemap_files" "http://x/en/sitemap.xml"
  = "sitemap_files/sitemap.xml.csv"
  /\ csv_name "sitemap_files" "http://x/fr/sitemap.xml"
     = csv_name "sitemap_files" "http://x/en/sitemap.xml".
Proof.
  apply (save_csv_same_last_segment "sitemap_files" "http://x/en"
           "http://x/fr" "sitemap.xml").
  apply split_second_none; [discriminate | reflexivity].
Defined.
